(** * Rule-based fire detector: a shallow embedding of
      [fire_detection.py] and [fire_detection_advanced.py].

    Conventions of the embedding.

    - Python [int] is [Z].  Python and NumPy floating-point values are
      modelled by exact rationals ([Q]): a decimal literal such as [0.45]
      is the rational it denotes, and [np.pi] is the rational value of the
      double it names.  Results in [Q] are compared with [==].
    - A division whose divisor is zero has no value: [fdiv] returns [None]
      there, and every function that divides lives in the [option] monad.
    - Images are row-major grids ([list (list _)]); 8-bit mask pixels are
      [Z] values.  Pixel-wise operations pair the operands position by
      position; every operand of such an operation in the detector comes
      from the same frame.
    - The OpenCV routines whose result is not computed by the detector's
      own code (colour conversion, morphology, optical flow, contour
      extraction and contour measurements) are the fields of the class
      [OpenCV]; every statement is proved for all of its instances. *)

From Stdlib Require Import ZArith QArith Qminmax List Bool Lia Lqa Permutation.
From Stdlib Require String.
Import ListNotations.
Open Scope Z_scope.

(** ** The option monad (a computation that may divide by zero) *)

Definition bind {A B} (m : option A) (k : A -> option B) : option B :=
  match m with
  | Some a => k a
  | None => None
  end.

Notation "x <- m ;; k" := (bind m (fun x => k))
  (at level 61, m at next level, right associativity).
Notation "' pat <- m ;; k" := (bind m (fun x => match x with pat => k end))
  (at level 61, pat pattern, m at next level, right associativity).

(** ** Rational arithmetic as the code uses it *)

Definition Qlt_bool (a b : Q) : bool := negb (Qle_bool b a).

(** [a / b] of Python and NumPy; no value when [b] is zero. *)
Definition fdiv (a b : Q) : option Q :=
  if Qeq_bool b 0 then None else Some (a / b)%Q.

(** [np.pi], the double nearest to pi. *)
Definition np_pi : Q := 884279719003555 # 281474976710656.

Definition sumQ (l : list Q) : Q := fold_right Qplus 0%Q l.

(** [np.mean]: the sum over the number of elements. *)
Definition np_mean (l : list Q) : option Q :=
  fdiv (sumQ l) (inject_Z (Z.of_nat (length l))).

(** [np.var]: the mean of the squared deviations from the mean. *)
Definition np_var (l : list Q) : option Q :=
  m <- np_mean l ;;
  np_mean (map (fun x => (x - m) * (x - m))%Q l).

(** ** Images and masks *)

Definition Image (A : Type) : Type := list (list A).
Definition HSVPixel : Type := (Z * Z * Z)%type.
Definition HSVFrame : Type := Image HSVPixel.
Definition Mask : Type := Image Z.

Fixpoint map2 {A B C} (f : A -> B -> C) (l : list A) (l' : list B) : list C :=
  match l, l' with
  | a :: t, b :: t' => f a b :: map2 f t t'
  | _, _ => []
  end.

Definition image_map {A B} (f : A -> B) (img : Image A) : Image B :=
  map (map f) img.

Definition image_map2 {A B C} (f : A -> B -> C) (a : Image A) (b : Image B)
  : Image C :=
  map2 (map2 f) a b.

(** [cv2.inRange]: 255 where every channel lies between the bounds
    (inclusive), 0 elsewhere. *)
Definition in_range_pixel (lower upper p : HSVPixel) : Z :=
  let '(h, s, v) := p in
  let '(lh, ls, lv) := lower in
  let '(uh, us, uv) := upper in
  if (lh <=? h) && (h <=? uh) && (ls <=? s) && (s <=? us)
     && (lv <=? v) && (v <=? uv)
  then 255 else 0.

Definition inRange (hsv : HSVFrame) (lower upper : HSVPixel) : Mask :=
  image_map (in_range_pixel lower upper) hsv.

Definition bitwise_or (a b : Mask) : Mask := image_map2 Z.lor a b.
Definition bitwise_and (a b : Mask) : Mask := image_map2 Z.land a b.
(** On 8-bit pixels [cv2.bitwise_not] flips the eight bits. *)
Definition bitwise_not (a : Mask) : Mask := image_map (fun x => Z.lxor x 255) a.

(** [cv2.countNonZero]. *)
Definition countNonZero (m : Mask) : Z :=
  Z.of_nat (length (filter (fun x => negb (x =? 0)) (concat m))).

(** ** The OpenCV routines the detector calls but does not compute *)

Inductive MorphOp : Type := MORPH_OPEN | MORPH_CLOSE.

Class OpenCV : Type := {
  Frame : Type;
  GrayFrame : Type;
  Contour : Type;
  (** [cv2.cvtColor(frame, cv2.COLOR_BGR2HSV)] *)
  cvtColor_BGR2HSV : Frame -> HSVFrame;
  (** [cv2.cvtColor(frame, cv2.COLOR_BGR2GRAY)] *)
  cvtColor_BGR2GRAY : Frame -> GrayFrame;
  (** [cv2.morphologyEx(mask, op, kernel, iterations=n)] with the 5x5
      elliptic kernel *)
  morphologyEx : Mask -> MorphOp -> nat -> Mask;
  (** the magnitude returned by [cv2.cartToPolar] on the two channels of
      [cv2.calcOpticalFlowFarneback(prev, next, ...)] *)
  flow_magnitude : GrayFrame -> GrayFrame -> Image Q;
  (** [cv2.findContours(mask, cv2.RETR_EXTERNAL, cv2.CHAIN_APPROX_SIMPLE)] *)
  findContours : Mask -> list Contour;
  contourArea : Contour -> Q;
  (** [cv2.arcLength(contour, True)] *)
  arcLength : Contour -> Q;
  (** the size [(rect[1][0], rect[1][1])] of [cv2.minAreaRect(contour)] *)
  minAreaRect_size : Contour -> Q * Q;
  convexHull : Contour -> Contour;
  (** [cv2.boundingRect(contour)]: x, y, w, h *)
  boundingRect : Contour -> Z * Z * Z * Z
}.

(** ** Detector state

    The fields of [self] that [process_frame] reads or writes.  The other
    fields set by [__init__] ([motion_history], [fire_detected],
    [alert_start_time], [min_alert_duration]) are never used afterwards. *)

Record DetectorState `{OpenCV} : Type := {
  prev_gray : option GrayFrame;
  flicker_history : list Z;
  consecutive_frames : Z
}.

Definition set_prev_gray `{OpenCV} (self : DetectorState) (g : option GrayFrame)
  : DetectorState :=
  {| prev_gray := g;
     flicker_history := flicker_history self;
     consecutive_frames := consecutive_frames self |}.

Definition set_flicker_history `{OpenCV} (self : DetectorState) (h : list Z)
  : DetectorState :=
  {| prev_gray := prev_gray self;
     flicker_history := h;
     consecutive_frames := consecutive_frames self |}.

Definition set_consecutive_frames `{OpenCV} (self : DetectorState) (n : Z)
  : DetectorState :=
  {| prev_gray := prev_gray self;
     flicker_history := flicker_history self;
     consecutive_frames := n |}.

(** [__init__]: no previous frame, an empty flicker window, a zero counter. *)
Definition init `{OpenCV} : DetectorState :=
  {| prev_gray := None; flicker_history := []; consecutive_frames := 0 |}.

(** [collections.deque(maxlen=n).append]: the oldest sample is dropped when
    the window is full. *)
Definition deque_append {A} (maxlen : nat) (d : list A) (x : A) : list A :=
  let d' := d ++ [x] in
  skipn (length d' - maxlen) d'.

(** The tuple [process_frame] returns.  The marked frame is the input frame
    together with the rectangles drawn on its copy. *)
Record FrameResult `{OpenCV} : Type := {
  fire_status : bool;
  marked_frame : Frame * list (Z * Z * Z * Z);
  confidence : Q;
  motion_ratio : Q;
  has_flicker : bool
}.

(** ** The methods whose text is the same in both files

    [detect_motion], [detect_flicker], [get_fire_contours] and
    [process_frame] read the same in [fire_detection.py] and
    [fire_detection_advanced.py]; only the constants of [__init__] and the
    bodies of [detect_fire_color] and [is_fire_like_shape] differ.  A
    [DetectorClass] holds what these methods look up through [self]; they
    are written once, over it. *)

Record DetectorClass `{OpenCV} : Type := {
  self_min_motion_threshold : Q;
  self_required_detections : Z;
  self_min_flicker_variance : Q;
  self_detect_fire_color : HSVFrame -> Mask;
  self_is_fire_like_shape : Contour -> option bool
}.

Module Engine.
Section Methods.
Context `{cv : OpenCV}.
Variable cls : DetectorClass.

Definition count_true (img : Image bool) : Z :=
  Z.of_nat (length (filter (fun b => b) (concat img))).

Definition detect_motion (self : DetectorState) (gray_frame : GrayFrame)
  (fire_mask : Mask) : option (Q * DetectorState) :=
  match prev_gray self with
  | None => Some (0%Q, set_prev_gray self (Some gray_frame))
  | Some prev =>
      let magnitude := flow_magnitude prev gray_frame in
      let masked_magnitude :=
        image_map2 (fun m x => (m * (inject_Z x / 255))%Q) magnitude fire_mask in
      let fire_pixels := countNonZero fire_mask in
      motion_ratio <-
        (if fire_pixels =? 0 then Some 0%Q
         else
           let motion_pixels :=
             count_true (image_map (fun m => Qlt_bool 2 m) masked_magnitude) in
           fdiv (inject_Z motion_pixels) (inject_Z fire_pixels)) ;;
      Some (motion_ratio, set_prev_gray self (Some gray_frame))
  end.

Definition detect_flicker (self : DetectorState) (fire_mask : Mask)
  : option (bool * DetectorState) :=
  let fire_area := countNonZero fire_mask in
  let self :=
    set_flicker_history self (deque_append 10 (flicker_history self) fire_area) in
  if (length (flicker_history self) <? 5)%nat then Some (false, self)
  else
    let area_array := map inject_Z (flicker_history self) in
    v <- np_var area_array ;;
    m <- np_mean area_array ;;
    area_variance <- fdiv v (m + 1)%Q ;;
    Some (Qlt_bool (self_min_flicker_variance cls) area_variance, self).

Definition get_fire_contours (fire_mask : Mask) : list Contour :=
  findContours fire_mask.

(** The loop [for contour in contours] of [process_frame], on the pair
    [(valid_contours, fire_detected_this_frame)]. *)
Fixpoint for_contours (contours : list Contour) (acc : list Contour * bool)
  : option (list Contour * bool) :=
  match contours with
  | [] => Some acc
  | contour :: rest =>
      ok <- self_is_fire_like_shape cls contour ;;
      for_contours rest (if ok then (fst acc ++ [contour], true) else acc)
  end.

Definition process_frame (self : DetectorState) (frame : Frame)
  : option (FrameResult * DetectorState) :=
  let hsv := cvtColor_BGR2HSV frame in
  let gray := cvtColor_BGR2GRAY frame in
  let fire_mask := self_detect_fire_color cls hsv in
  '(motion_ratio, self) <- detect_motion self gray fire_mask ;;
  let contours := get_fire_contours fire_mask in
  '(valid_contours, fire_detected_this_frame) <-
    for_contours contours ([], false) ;;
  '(has_flicker, self) <- detect_flicker self fire_mask ;;
  let self :=
    if fire_detected_this_frame
       && Qlt_bool (self_min_motion_threshold cls) motion_ratio
       && has_flicker
    then set_consecutive_frames self (consecutive_frames self + 1)
    else set_consecutive_frames self (Z.max 0 (consecutive_frames self - 1)) in
  let fire_status := self_required_detections cls <=? consecutive_frames self in
  let marked_frame := (frame, map boundingRect valid_contours) in
  ratio <- fdiv (inject_Z (consecutive_frames self))
                (inject_Z (self_required_detections cls)) ;;
  let confidence := Qmin 100 (ratio * 100) in
  Some ({| fire_status := fire_status;
           marked_frame := marked_frame;
           confidence := confidence;
           motion_ratio := motion_ratio;
           has_flicker := has_flicker |}, self).

(** The capture loop of [main] as far as the detector is concerned: one
    [process_frame] call per frame, in order, on the same detector. *)
Fixpoint run (self : DetectorState) (frames : list Frame)
  : option (list FrameResult * DetectorState) :=
  match frames with
  | [] => Some ([], self)
  | frame :: rest =>
      '(r, self) <- process_frame self frame ;;
      '(rs, self) <- run self rest ;;
      Some (r :: rs, self)
  end.

End Methods.
End Engine.

(** ** [fire_detection.py]: class [FireDetector] *)

Module FireDetection.
Section Detector.
Context `{cv : OpenCV}.

Definition lower_fire_red1 : HSVPixel := (0, 140, 150).
Definition upper_fire_red1 : HSVPixel := (15, 255, 255).
Definition lower_fire_red2 : HSVPixel := (175, 140, 150).
Definition upper_fire_red2 : HSVPixel := (180, 255, 255).
Definition lower_skin : HSVPixel := (0, 10, 60).
Definition upper_skin : HSVPixel := (25, 110, 200).
Definition lower_tomato_red1 : HSVPixel := (0, 60, 80).
Definition upper_tomato_red1 : HSVPixel := (25, 140, 150).
Definition lower_tomato_red2 : HSVPixel := (170, 60, 80).
Definition upper_tomato_red2 : HSVPixel := (180, 140, 150).
Definition lower_cloth_red1 : HSVPixel := (0, 50, 50).
Definition upper_cloth_red1 : HSVPixel := (25, 110, 180).
Definition lower_cloth_red2 : HSVPixel := (170, 50, 50).
Definition upper_cloth_red2 : HSVPixel := (180, 110, 180).

Definition min_motion_threshold : Q := 45 # 100.
Definition min_fire_area : Q := 800.
Definition max_fire_area : Q := 80000.
Definition required_detections : Z := 5.
Definition min_flicker_variance : Q := 8 # 100.

(** The three exclusion masks of [detect_fire_color]. *)
Definition skin_mask (hsv_frame : HSVFrame) : Mask :=
  inRange hsv_frame lower_skin upper_skin.

Definition tomato_mask (hsv_frame : HSVFrame) : Mask :=
  let tomato_mask_1 := inRange hsv_frame lower_tomato_red1 upper_tomato_red1 in
  let tomato_mask_2 := inRange hsv_frame lower_tomato_red2 upper_tomato_red2 in
  bitwise_or tomato_mask_1 tomato_mask_2.

Definition cloth_mask (hsv_frame : HSVFrame) : Mask :=
  let mask_cloth_1 := inRange hsv_frame lower_cloth_red1 upper_cloth_red1 in
  let mask_cloth_2 := inRange hsv_frame lower_cloth_red2 upper_cloth_red2 in
  bitwise_or mask_cloth_1 mask_cloth_2.

Definition detect_fire_color (hsv_frame : HSVFrame) : Mask :=
  let mask_fire_1 := inRange hsv_frame lower_fire_red1 upper_fire_red1 in
  let mask_fire_2 := inRange hsv_frame lower_fire_red2 upper_fire_red2 in
  let fire_mask := bitwise_or mask_fire_1 mask_fire_2 in
  let fire_mask := bitwise_and fire_mask (bitwise_not (skin_mask hsv_frame)) in
  let fire_mask := bitwise_and fire_mask (bitwise_not (tomato_mask hsv_frame)) in
  let fire_mask := bitwise_and fire_mask (bitwise_not (cloth_mask hsv_frame)) in
  let fire_mask := morphologyEx fire_mask MORPH_OPEN 2 in
  let fire_mask := morphologyEx fire_mask MORPH_CLOSE 2 in
  fire_mask.

Definition is_fire_like_shape (contour : Contour) : option bool :=
  let area := contourArea contour in
  if Qlt_bool area min_fire_area || Qlt_bool max_fire_area area then Some false
  else
  let perimeter := arcLength contour in
  if Qeq_bool perimeter 0 then Some false
  else
  circularity <- fdiv (4 * np_pi * area) (perimeter * perimeter) ;;
  if Qlt_bool (7 # 10) circularity then Some false
  else
  if Qlt_bool circularity (25 # 100) then Some false
  else
  let rect := minAreaRect_size contour in
  if Qeq_bool (fst rect) 0 then Some false
  else
  aspect_ratio <- fdiv (snd rect) (fst rect) ;;
  if Qlt_bool (18 # 10) aspect_ratio || Qlt_bool aspect_ratio (6 # 10)
  then Some false
  else
  let hull := convexHull contour in
  let hull_area := contourArea hull in
  if Qeq_bool hull_area 0 then Some false
  else
  solidity <- fdiv area hull_area ;;
  if Qlt_bool (85 # 100) solidity then Some false
  else
  if Qlt_bool solidity (4 # 10) then Some false
  else
  Some true.

Definition FireDetector : DetectorClass :=
  {| self_min_motion_threshold := min_motion_threshold;
     self_required_detections := required_detections;
     self_min_flicker_variance := min_flicker_variance;
     self_detect_fire_color := detect_fire_color;
     self_is_fire_like_shape := is_fire_like_shape |}.

End Detector.
End FireDetection.

(** ** [fire_detection_advanced.py]: the second class [FireDetector] *)

Module FireDetectionAdvanced.
Section Detector.
Context `{cv : OpenCV}.

Definition lower_fire_red1 : HSVPixel := (0, 100, 100).
Definition upper_fire_red1 : HSVPixel := (25, 255, 255).
Definition lower_fire_red2 : HSVPixel := (170, 100, 100).
Definition upper_fire_red2 : HSVPixel := (180, 255, 255).
Definition lower_cloth_red1 : HSVPixel := (0, 50, 50).
Definition upper_cloth_red1 : HSVPixel := (25, 100, 150).
Definition lower_cloth_red2 : HSVPixel := (170, 50, 50).
Definition upper_cloth_red2 : HSVPixel := (180, 100, 150).

Definition min_motion_threshold : Q := 15 # 100.
Definition min_fire_area : Q := 500.
Definition max_fire_area : Q := 100000.
Definition required_detections : Z := 3.
Definition min_flicker_variance : Q := 2 # 100.

Definition detect_fire_color (hsv_frame : HSVFrame) : Mask :=
  let mask_fire_1 := inRange hsv_frame lower_fire_red1 upper_fire_red1 in
  let mask_fire_2 := inRange hsv_frame lower_fire_red2 upper_fire_red2 in
  let fire_mask := bitwise_or mask_fire_1 mask_fire_2 in
  let mask_cloth_1 := inRange hsv_frame lower_cloth_red1 upper_cloth_red1 in
  let mask_cloth_2 := inRange hsv_frame lower_cloth_red2 upper_cloth_red2 in
  let cloth_mask := bitwise_or mask_cloth_1 mask_cloth_2 in
  let fire_mask := bitwise_and fire_mask (bitwise_not cloth_mask) in
  let fire_mask := morphologyEx fire_mask MORPH_OPEN 2 in
  let fire_mask := morphologyEx fire_mask MORPH_CLOSE 2 in
  fire_mask.

Definition is_fire_like_shape (contour : Contour) : option bool :=
  let area := contourArea contour in
  if Qlt_bool area min_fire_area || Qlt_bool max_fire_area area then Some false
  else
  let perimeter := arcLength contour in
  if Qeq_bool perimeter 0 then Some false
  else
  circularity <- fdiv (4 * np_pi * area) (perimeter * perimeter) ;;
  if Qlt_bool (8 # 10) circularity then Some false
  else
  let rect := minAreaRect_size contour in
  if Qeq_bool (fst rect) 0 then Some false
  else
  aspect_ratio <- fdiv (snd rect) (fst rect) ;;
  if Qlt_bool 3 aspect_ratio || Qlt_bool aspect_ratio (3 # 10)
  then Some false
  else
  Some true.

Definition FireDetector : DetectorClass :=
  {| self_min_motion_threshold := min_motion_threshold;
     self_required_detections := required_detections;
     self_min_flicker_variance := min_flicker_variance;
     self_detect_fire_color := detect_fire_color;
     self_is_fire_like_shape := is_fire_like_shape |}.

End Detector.
End FireDetectionAdvanced.

(** ** The two detector classes, by source file *)

Inductive SourceFile : Type :=
| fire_detection_py
| fire_detection_advanced_py.

Definition FireDetector `{OpenCV} (file : SourceFile) : DetectorClass :=
  match file with
  | fire_detection_py => FireDetection.FireDetector
  | fire_detection_advanced_py => FireDetectionAdvanced.FireDetector
  end.

(** The detector state after a fresh detector has processed [frames]. *)
Definition state_after `{OpenCV} (cls : DetectorClass) (frames : list Frame)
  : option DetectorState :=
  '(_, self) <- Engine.run cls init frames ;;
  Some self.

(** What holds of every state a detector reaches: the flicker window holds
    pixel counts and the counter is not negative. *)
Definition well_formed `{OpenCV} (self : DetectorState) : Prop :=
  Forall (fun a => 0 <= a) (flicker_history self)
  /\ 0 <= consecutive_frames self.

(** A contour is accepted when the shape classifier returns [True] on it. *)
Definition accepted `{OpenCV} (cls : DetectorClass) (contour : Contour) : bool :=
  match self_is_fire_like_shape cls contour with
  | Some true => true
  | _ => false
  end.

(** One exclusion step of [detect_fire_color]:
    [cv2.bitwise_and(fire_mask, cv2.bitwise_not(mask))]. *)
Definition exclude (fire_mask mask : Mask) : Mask :=
  bitwise_and fire_mask (bitwise_not mask).

(** ** The quantities of the specification, written from its words

    These are compared with what the code computes. *)

(** [variance(areas) / (mean(areas) + 1)] over the flicker window. *)
Definition spec_mean (areas : list Z) : Q :=
  (sumQ (map inject_Z areas) / inject_Z (Z.of_nat (length areas)))%Q.

Definition spec_variance (areas : list Z) : Q :=
  (sumQ (map (fun a => (inject_Z a - spec_mean areas)
                       * (inject_Z a - spec_mean areas)) areas)
   / inject_Z (Z.of_nat (length areas)))%Q.

Definition spec_normalized_variance (areas : list Z) : Q :=
  (spec_variance areas / (spec_mean areas + 1))%Q.

(** [min(100, 100 * consecutiveVotes / requiredDetections)]. *)
Definition spec_confidence (consecutiveVotes requiredDetections : Z) : Q :=
  Qmin 100 (100 * inject_Z consecutiveVotes / inject_Z requiredDetections).

(** The four gates of the shape classifier, with the bands of the
    specification: area in [[lo, hi]], circularity in [[0.25, 0.7]],
    aspect ratio in [[0.6, 1.8]], solidity in [[0.4, 0.85]]; a zero
    perimeter, width or hull area fails its gate. *)
Section Gates.
Context `{cv : OpenCV}.
Variable contour : Contour.

Definition circularity_of : Q :=
  (4 * np_pi * contourArea contour
   / (arcLength contour * arcLength contour))%Q.
Definition aspect_ratio_of : Q :=
  (snd (minAreaRect_size contour) / fst (minAreaRect_size contour))%Q.
Definition solidity_of : Q :=
  (contourArea contour / contourArea (convexHull contour))%Q.

Definition area_gate (lo hi : Q) : Prop :=
  (lo <= contourArea contour /\ contourArea contour <= hi)%Q.
Definition circularity_gate (lo hi : Q) : Prop :=
  (~ arcLength contour == 0 /\ lo <= circularity_of /\ circularity_of <= hi)%Q.
Definition aspect_gate (lo hi : Q) : Prop :=
  (~ fst (minAreaRect_size contour) == 0
   /\ lo <= aspect_ratio_of /\ aspect_ratio_of <= hi)%Q.
Definition solidity_gate (lo hi : Q) : Prop :=
  (~ contourArea (convexHull contour) == 0
   /\ lo <= solidity_of /\ solidity_of <= hi)%Q.

End Gates.

(** ** Loading a Python module

    The statements at the top level of a source file run in order against
    the module's namespace.  An [import] binds a name when the imported
    module can be found; a class statement evaluates its base classes, by
    name, before it binds the class; a [def] binds its name without running
    its body. *)

Module PyModule.
Import String.
Local Open Scope string_scope.

Inductive exn : Type :=
| NameError (name : string)
| ModuleNotFoundError (module : string).

Inductive stmt : Type :=
| Docstring
| Import (module : string) (binds : string)
| ClassDef (name : string) (bases : list string)
| FunctionDef (name : string)
(** [if __name__ == "__main__": main()] *)
| IfMain (callee : string).

Definition namespace : Type := list string.

Inductive outcome : Type :=
| Loaded (globals : namespace)
| Raised (e : exn) (globals : namespace).

(** Names found without being bound by the module. *)
Definition builtins : namespace :=
  ["object"; "Exception"; "print"; "super"; "min"; "max"; "len"; "list"].

Definition bound (globals : namespace) (name : string) : bool :=
  existsb (String.eqb name) globals || existsb (String.eqb name) builtins.

Definition first_unbound (globals : namespace) (names : list string)
  : option string :=
  find (fun n => negb (bound globals n)) names.

(** [available] tells which modules the interpreter can import;
    [as_script] is true when the file is run as the main program.  The
    final [if __name__ == "__main__": main()] looks [main] up when the file
    is run as a script; what the call then does (the capture loop) is not
    part of loading and is not modelled. *)
Fixpoint exec (available : string -> bool) (as_script : bool)
  (globals : namespace) (body : list stmt) : outcome :=
  match body with
  | [] => Loaded globals
  | s :: rest =>
      match s with
      | Docstring => exec available as_script globals rest
      | Import module binds =>
          if available module
          then exec available as_script (binds :: globals) rest
          else Raised (ModuleNotFoundError module) globals
      | ClassDef name bases =>
          match first_unbound globals bases with
          | Some base => Raised (NameError base) globals
          | None => exec available as_script (name :: globals) rest
          end
      | FunctionDef name => exec available as_script (name :: globals) rest
      | IfMain callee =>
          if as_script && negb (bound globals callee)
          then Raised (NameError callee) globals
          else exec available as_script globals rest
      end
  end.

Definition load (available : string -> bool) (as_script : bool)
  (body : list stmt) : outcome :=
  exec available as_script [] body.

(** The top level of [fire_detection_advanced.py]. *)
Definition fire_detection_advanced : list stmt :=
  [ Docstring;
    Import "cv2" "cv2";
    Import "numpy" "np";
    Import "collections" "deque";
    Import "time" "time";
    Import "datetime" "datetime";
    Import "winsound" "winsound";
    ClassDef "FireDetectorWithAlert" ["FireDetector"];
    ClassDef "FireDetector" [];
    FunctionDef "main";
    IfMain "main" ].

(** The top level of [fire_detection.py]. *)
Definition fire_detection : list stmt :=
  [ Docstring;
    Import "cv2" "cv2";
    Import "numpy" "np";
    Import "collections" "deque";
    Import "time" "time";
    Import "datetime" "datetime";
    ClassDef "FireDetector" [];
    FunctionDef "main";
    IfMain "main" ].

Definition imports_of (body : list stmt) : list string :=
  flat_map (fun s => match s with Import m _ => [m] | _ => [] end) body.

Definition globals_of (o : outcome) : namespace :=
  match o with
  | Loaded g => g
  | Raised _ g => g
  end.

End PyModule.

(** ** A synthetic camera

    An instance of [OpenCV] for scenes that show one jagged, moving flame
    blob on a dark background.  A frame is given directly by its HSV image;
    the grey image is its value channel; the mask is left as thresholded;
    the flow magnitude is 3 at every pixel; a non-empty mask has one
    contour, whose area is the number of mask pixels and whose other
    measurements are those of [blob]. *)

Module Synthetic.

Record Blob : Type := {
  blob_area : Q;
  blob_perimeter : Q;
  blob_rect : Q * Q;
  blob_hull_area : Q
}.

Definition blob (pixels : Z) : Blob :=
  {| blob_area := inject_Z pixels;
     blob_perimeter := 160;
     blob_rect := (40, 36)%Q;
     blob_hull_area := (inject_Z pixels * (3 # 2))%Q |}.

(** A nearly round, nearly convex region such as a ball: area 1000,
    perimeter 130, bounding rectangle 37 by 36, hull area 1050. *)
Definition round_blob : Blob :=
  {| blob_area := 1000;
     blob_perimeter := 130;
     blob_rect := (37, 36)%Q;
     blob_hull_area := 1050 |}.

Definition hull (b : Blob) : Blob :=
  {| blob_area := blob_hull_area b;
     blob_perimeter := blob_perimeter b;
     blob_rect := blob_rect b;
     blob_hull_area := blob_hull_area b |}.

#[export] Instance camera : OpenCV :=
  {| Frame := HSVFrame;
     GrayFrame := Image Z;
     Contour := Blob;
     cvtColor_BGR2HSV := fun frame => frame;
     cvtColor_BGR2GRAY := image_map (fun p : HSVPixel => snd p);
     morphologyEx := fun mask _ _ => mask;
     flow_magnitude := fun _ next => image_map (fun _ => 3%Q) next;
     findContours := fun mask =>
       if countNonZero mask =? 0 then [] else [blob (countNonZero mask)];
     contourArea := blob_area;
     arcLength := blob_perimeter;
     minAreaRect_size := blob_rect;
     convexHull := hull;
     boundingRect := fun _ => (0, 0, 40, 36) |}.

Definition flame_pixel : HSVPixel := (5, 200, 220).
Definition dark_pixel : HSVPixel := (0, 0, 0).

(** A 40-column, 30-row frame whose first [rows] rows are flame. *)
Definition scene (rows : nat) : HSVFrame :=
  repeat (repeat flame_pixel 40) rows
  ++ repeat (repeat dark_pixel 40) (30 - rows).

(** Ten frames of a flame that flickers between 1000 and 1200 pixels. *)
Definition flickering_flame : list HSVFrame :=
  [scene 25; scene 30; scene 25; scene 30; scene 25;
   scene 30; scene 25; scene 30; scene 25; scene 30].

End Synthetic.

(** ** What the colour thresholds amount to, pixel by pixel

    Written from the constants of [__init__]; compared below with the masks
    that [detect_fire_color] builds. *)

(** A hue in [0, lo_max] or in [hi_min, 180]. *)
Definition hue_near_red (lo_max hi_min h : Z) : bool :=
  (0 <=? h) && (h <=? lo_max) || (hi_min <=? h) && (h <=? 180).

(** [fire_detection.py]: hue 0..15 or 175..180, saturation 140..255, value
    150..255, but not saturation 140 together with value 150. *)
Definition strict_fire_pixel (p : HSVPixel) : Z :=
  let '(h, s, v) := p in
  if hue_near_red 15 175 h
     && (140 <=? s) && (s <=? 255) && (150 <=? v) && (v <=? 255)
     && negb ((s =? 140) && (v =? 150))
  then 255 else 0.

(** [fire_detection_advanced.py]: hue 0..25 or 170..180, saturation
    100..255, value 100..255, but not saturation 100 together with a value
    of 150 or less. *)
Definition advanced_fire_pixel (p : HSVPixel) : Z :=
  let '(h, s, v) := p in
  if hue_near_red 25 170 h
     && (100 <=? s) && (s <=? 255) && (100 <=? v) && (v <=? 255)
     && negb ((s =? 100) && (v <=? 150))
  then 255 else 0.

(** The value of [fire_mask] in [detect_fire_color] just before the two
    morphology passes, in [fire_detection.py] and in
    [fire_detection_advanced.py]. *)
Definition strict_thresholded (hsv_frame : HSVFrame) : Mask :=
  let mask_fire_1 :=
    inRange hsv_frame FireDetection.lower_fire_red1
      FireDetection.upper_fire_red1 in
  let mask_fire_2 :=
    inRange hsv_frame FireDetection.lower_fire_red2
      FireDetection.upper_fire_red2 in
  let fire_mask := bitwise_or mask_fire_1 mask_fire_2 in
  let fire_mask :=
    bitwise_and fire_mask (bitwise_not (FireDetection.skin_mask hsv_frame)) in
  let fire_mask :=
    bitwise_and fire_mask
      (bitwise_not (FireDetection.tomato_mask hsv_frame)) in
  bitwise_and fire_mask (bitwise_not (FireDetection.cloth_mask hsv_frame)).

Definition advanced_thresholded (hsv_frame : HSVFrame) : Mask :=
  let mask_fire_1 :=
    inRange hsv_frame FireDetectionAdvanced.lower_fire_red1
      FireDetectionAdvanced.upper_fire_red1 in
  let mask_fire_2 :=
    inRange hsv_frame FireDetectionAdvanced.lower_fire_red2
      FireDetectionAdvanced.upper_fire_red2 in
  let fire_mask := bitwise_or mask_fire_1 mask_fire_2 in
  let mask_cloth_1 :=
    inRange hsv_frame FireDetectionAdvanced.lower_cloth_red1
      FireDetectionAdvanced.upper_cloth_red1 in
  let mask_cloth_2 :=
    inRange hsv_frame FireDetectionAdvanced.lower_cloth_red2
      FireDetectionAdvanced.upper_cloth_red2 in
  let cloth_mask := bitwise_or mask_cloth_1 mask_cloth_2 in
  bitwise_and fire_mask (bitwise_not cloth_mask).

(** The mask areas that [frames] give a detector of class [cls]. *)
Definition mask_areas `{OpenCV} (cls : DetectorClass) (frames : list Frame)
  : list Z :=
  map (fun frame =>
         countNonZero (self_detect_fire_color cls (cvtColor_BGR2HSV frame)))
      frames.

(** The last [n] elements of a list. *)
Definition last_n {A} (n : nat) (l : list A) : list A :=
  skipn (length l - n) l.

(** ** The capture loop: [main] of [fire_detection.py]

    One turn of [while True] reads a frame, counts it, resizes it, hands it
    to the detector, refreshes the frame rate every thirtieth frame,
    prints the alert banner, shows the annotated frame and reacts to a key.
    What a turn takes from outside (the camera, the clock, the keyboard) is
    a [Turn]; what it prints, shows and saves is a list of [Output]s.  The
    instructions printed before the loop, the texts drawn on the frame and
    the date in them are left out. *)

Module FireDetectionMain.
Section Main.
Context `{cv : OpenCV}.
(** [cv2.resize(frame, (640, 480))] *)
Variable resize : Frame -> Frame.

Record Turn : Type := {
  (** [cap.read()]: [None] when [ret] is false *)
  cap_read : option Frame;
  (** [time.time()] in the frame-rate formula *)
  time_fps : Q;
  (** [time.time()] stored in [fps_start] *)
  time_restart : Q;
  (** [cv2.waitKey(1)] *)
  wait_key : Z
}.

(** The local variables of [main]. *)
Record Locals : Type := {
  detector : DetectorState;
  frame_count : Z;
  fps_start : Q;
  fps : Q;
  alert_sound_played : bool
}.

Inductive Output : Type :=
(** [print("Error: Cannot read from camera")] *)
| PrintCannotRead
(** the three [print] calls of the alert banner *)
| PrintFireDetected
(** [cv2.imshow] of the annotated frame *)
| Imshow (result : FrameResult) (fps : Q)
(** [cv2.imwrite] of the annotated frame and its [print] *)
| Imwrite
(** the [print] calls of the test mode *)
| PrintTestMode (result : FrameResult) (consecutive required : Z)
(** [print("\nCamera closed. Fire detection stopped.")] *)
| PrintCameraClosed.

Inductive Control : Type := Continue | Break.

Definition ord_q : Z := 113.
Definition ord_s : Z := 115.
Definition ord_t : Z := 116.

Definition loop_body (l : Locals) (t : Turn)
  : option (Locals * list Output * Control) :=
  match cap_read t with
  | None => Some (l, [PrintCannotRead], Break)
  | Some frame =>
      let frame_count := frame_count l + 1 in
      let frame := resize frame in
      '(result, detector) <-
        Engine.process_frame FireDetection.FireDetector (detector l) frame ;;
      '(fps, fps_start) <-
        (if frame_count mod 30 =? 0
         then
           fps <- fdiv 30 (time_fps t - fps_start l) ;;
           Some (fps, time_restart t)
         else Some (fps l, fps_start l)) ;;
      let '(printed, alert_sound_played) :=
        if fire_status result
        then
          if negb (alert_sound_played l)
          then ([PrintFireDetected], true)
          else ([], alert_sound_played l)
        else ([], false) in
      let shown := printed ++ [Imshow result fps] in
      let l' :=
        {| detector := detector;
           frame_count := frame_count;
           fps_start := fps_start;
           fps := fps;
           alert_sound_played := alert_sound_played |} in
      let key := Z.land (wait_key t) 255 in
      if key =? ord_q then Some (l', shown, Break)
      else if key =? ord_s then Some (l', shown ++ [Imwrite], Continue)
      else if key =? ord_t
      then
        Some (l',
              shown
              ++ [PrintTestMode result (consecutive_frames detector)
                    (self_required_detections FireDetection.FireDetector)],
              Continue)
      else Some (l', shown, Continue)
  end.

(** [while True] over the turns that the outside offers; [Continue] at the
    end means that the loop has not stopped yet. *)
Fixpoint loop (l : Locals) (turns : list Turn)
  : option (Locals * list Output * Control) :=
  match turns with
  | [] => Some (l, [], Continue)
  | t :: rest =>
      '(l1, out1, control) <- loop_body l t ;;
      match control with
      | Break => Some (l1, out1, Break)
      | Continue =>
          '(l2, out2, control2) <- loop l1 rest ;;
          Some (l2, out1 ++ out2, control2)
      end
  end.

(** [main]: [start] is the [time.time()] read before the loop. *)
Definition main (start : Q) (turns : list Turn)
  : option (Locals * list Output * Control) :=
  let l :=
    {| detector := init;
       frame_count := 0;
       fps_start := start;
       fps := 0;
       alert_sound_played := false |} in
  '(l', out, control) <- loop l turns ;;
  match control with
  | Break => Some (l', out ++ [PrintCameraClosed], Break)
  | Continue => Some (l', out, Continue)
  end.

(** The frames that the loop takes from the turns: those read before the
    first failed read, up to and including the one shown when [q] is
    pressed. *)
Fixpoint frames_taken (turns : list Turn) : list Frame :=
  match turns with
  | [] => []
  | t :: rest =>
      match cap_read t with
      | None => []
      | Some frame =>
          frame :: (if Z.land (wait_key t) 255 =? ord_q then []
                    else frames_taken rest)
      end
  end.

(** The results shown, in order. *)
Definition results_shown (out : list Output) : list FrameResult :=
  flat_map (fun o => match o with Imshow r _ => [r] | _ => [] end) out.

(** For every frame shown, whether the banner was printed just before. *)
Fixpoint banner_before_shown (pending : bool) (out : list Output)
  : list bool :=
  match out with
  | [] => []
  | PrintFireDetected :: rest => banner_before_shown true rest
  | Imshow _ _ :: rest => pending :: banner_before_shown false rest
  | _ :: rest => banner_before_shown pending rest
  end.

End Main.
End FireDetectionMain.

(** The clock readings of the turns go forward: each reading in the
    frame-rate formula is later than the reading before it. *)
Fixpoint clock_advances `{OpenCV} (previous : Q)
  (turns : list FireDetectionMain.Turn) : Prop :=
  match turns with
  | [] => True
  | t :: rest =>
      (previous < FireDetectionMain.time_fps t)%Q
      /\ (FireDetectionMain.time_fps t <= FireDetectionMain.time_restart t)%Q
      /\ clock_advances (FireDetectionMain.time_restart t) rest
  end.

(** The places where a sequence of alert states turns from off to on,
    [previous] being the state before the first. *)
Fixpoint rising_edges (previous : bool) (statuses : list bool) : list bool :=
  match statuses with
  | [] => []
  | s :: rest => (s && negb previous) :: rising_edges s rest
  end.

(** ** [FireDetectorWithAlert] of [fire_detection_advanced.py]

    [play_alert] reads the clock and may call [winsound.Beep], which may
    raise; both are given as arguments. *)

Module FireDetectorWithAlert.

(** The fields that [__init__] adds to the detector. *)
Record AlertState : Type := {
  last_alert_time : Q;
  alert_cooldown : Q
}.

Definition init_alert : AlertState :=
  {| last_alert_time := 0; alert_cooldown := 2 |}.

Inductive AlertOutput : Type :=
(** [winsound.Beep(frequency, duration)] returned *)
| Beep (frequency duration : Z)
(** [print(f"Warning: Could not play sound: {e}")] *)
| PrintWarning.

Definition play_alert (self : AlertState) (current_time : Q)
  (beep_raises : bool) : AlertState * list AlertOutput :=
  if Qlt_bool (alert_cooldown self) (current_time - last_alert_time self)
  then
    if beep_raises then (self, [PrintWarning])
    else
      ({| last_alert_time := current_time;
          alert_cooldown := alert_cooldown self |},
       [Beep 1000 500])
  else (self, []).

(** Successive calls, each with its clock reading and whether the beep
    raises; the result lists the clock readings of the beeps that
    sounded. *)
Fixpoint play_alerts (self : AlertState) (calls : list (Q * bool))
  : AlertState * list Q :=
  match calls with
  | [] => (self, [])
  | (current_time, beep_raises) :: rest =>
      let '(self1, out) := play_alert self current_time beep_raises in
      let '(self2, beeps) := play_alerts self1 rest in
      (self2,
       match out with
       | Beep _ _ :: _ => current_time :: beeps
       | _ => beeps
       end)
  end.

(** Each time is more than [gap] after the one before, the first one more
    than [gap] after [previous]. *)
Fixpoint spaced (gap previous : Q) (times : list Q) : Prop :=
  match times with
  | [] => True
  | t :: rest => (gap < t - previous)%Q /\ spaced gap t rest
  end.

End FireDetectorWithAlert.

(** Turns for the synthetic camera: [scenes] are read one per turn, one
    clock tick apart from [first_tick] on, with no key pressed. *)
Fixpoint synthetic_turns (first_tick : Z) (scenes : list HSVFrame)
  : list (@FireDetectionMain.Turn Synthetic.camera) :=
  match scenes with
  | [] => []
  | scene :: rest =>
      @FireDetectionMain.Build_Turn Synthetic.camera
        (Some scene) (inject_Z first_tick) (inject_Z first_tick) (-1)
      :: synthetic_turns (first_tick + 1) rest
  end.

(** The turn of a failed read. *)
Definition failed_read : @FireDetectionMain.Turn Synthetic.camera :=
  @FireDetectionMain.Build_Turn Synthetic.camera None 0 0 (-1).

(** * Properties *)

(** ** Comparisons and division on rationals *)

Lemma Qlt_bool_iff (a b : Q) : Qlt_bool a b = true <-> (a < b)%Q.
Proof.
  unfold Qlt_bool. rewrite negb_true_iff. split; intro H.
  - apply Qnot_le_lt. intro L. apply Qle_bool_iff in L. congruence.
  - destruct (Qle_bool b a) eqn:E; [| reflexivity ].
    apply Qle_bool_iff in E. exfalso. exact (Qlt_not_le _ _ H E).
Qed.

Lemma Qlt_bool_false_iff (a b : Q) : Qlt_bool a b = false <-> (b <= a)%Q.
Proof.
  unfold Qlt_bool. rewrite negb_false_iff. apply Qle_bool_iff.
Qed.

Lemma Qeq_bool_false_iff (a b : Q) : Qeq_bool a b = false <-> ~ (a == b)%Q.
Proof.
  split.
  - apply Qeq_bool_neq.
  - intro H. destruct (Qeq_bool a b) eqn:E; [| reflexivity ].
    apply Qeq_bool_iff in E. contradiction.
Qed.

Lemma fdiv_defined (a b : Q) : ~ (b == 0)%Q -> fdiv a b = Some (a / b)%Q.
Proof.
  intro H. unfold fdiv. apply Qeq_bool_false_iff in H. now rewrite H.
Qed.

Lemma fdiv_undefined (a b : Q) : (b == 0)%Q -> fdiv a b = None.
Proof.
  intro H. unfold fdiv. apply Qeq_bool_iff in H. now rewrite H.
Qed.

Lemma square_nonzero (p : Q) : ~ (p == 0)%Q -> ~ (p * p == 0)%Q.
Proof.
  intros H E. destruct (Qmult_integral _ _ E); contradiction.
Qed.

Lemma inject_Z_nonzero (z : Z) : z <> 0 -> ~ (inject_Z z == 0)%Q.
Proof.
  intros H E. apply H. apply (inject_Z_injective z 0). exact E.
Qed.

(** ** Mask algebra *)

Lemma map2_swap {A B} (f : A -> B -> A) :
  (forall x a b, f (f x a) b = f (f x b) a) ->
  forall m a b, map2 f (map2 f m a) b = map2 f (map2 f m b) a.
Proof.
  intros Hf. induction m as [| x m IH]; intros [| a la] [| b lb];
    simpl; try reflexivity.
  now rewrite Hf, IH.
Qed.

Lemma land_swap (x a b : Z) : Z.land (Z.land x a) b = Z.land (Z.land x b) a.
Proof.
  rewrite <- !Z.land_assoc. f_equal. apply Z.land_comm.
Qed.

Lemma exclude_swap (m a b : Mask) :
  exclude (exclude m a) b = exclude (exclude m b) a.
Proof.
  unfold exclude, bitwise_and, image_map2.
  apply map2_swap. intros. apply map2_swap. apply land_swap.
Qed.

Lemma exclude_all_perm (l l' : list Mask) :
  Permutation l l' ->
  forall m, fold_left exclude l m = fold_left exclude l' m.
Proof.
  induction 1; intro m; simpl.
  - reflexivity.
  - apply IHPermutation.
  - now rewrite exclude_swap.
  - now rewrite IHPermutation1, IHPermutation2.
Qed.

Lemma detect_fire_color_exclusions `{OpenCV} (hsv_frame : HSVFrame) :
  FireDetection.detect_fire_color hsv_frame =
  morphologyEx
    (morphologyEx
       (fold_left exclude
          [FireDetection.skin_mask hsv_frame;
           FireDetection.tomato_mask hsv_frame;
           FireDetection.cloth_mask hsv_frame]
          (bitwise_or
             (inRange hsv_frame FireDetection.lower_fire_red1
                FireDetection.upper_fire_red1)
             (inRange hsv_frame FireDetection.lower_fire_red2
                FireDetection.upper_fire_red2)))
       MORPH_OPEN 2)
    MORPH_CLOSE 2.
Proof. reflexivity. Qed.

(** C8.  In [detect_fire_color] of [fire_detection.py] the skin, tomato and
    cloth masks are removed from the candidate mask one after the other.
    For every HSV frame and every candidate mask, each of the six orders of
    the three removals gives the mask that the order of the code (skin,
    tomato, cloth) gives. *)
Theorem exclusion_order_irrelevant (hsv_frame : HSVFrame) (fire_mask : Mask) :
  let skin := FireDetection.skin_mask hsv_frame in
  let tomato := FireDetection.tomato_mask hsv_frame in
  let cloth := FireDetection.cloth_mask hsv_frame in
  let coded := exclude (exclude (exclude fire_mask skin) tomato) cloth in
  exclude (exclude (exclude fire_mask skin) cloth) tomato = coded
  /\ exclude (exclude (exclude fire_mask tomato) skin) cloth = coded
  /\ exclude (exclude (exclude fire_mask tomato) cloth) skin = coded
  /\ exclude (exclude (exclude fire_mask cloth) skin) tomato = coded
  /\ exclude (exclude (exclude fire_mask cloth) tomato) skin = coded.
Proof.
  intros skin tomato cloth coded. unfold coded.
  repeat split.
  - apply exclude_swap.
  - f_equal. apply exclude_swap.
  - rewrite (exclude_swap (exclude fire_mask tomato) cloth skin).
    f_equal. apply exclude_swap.
  - rewrite (exclude_swap fire_mask cloth skin).
    rewrite (exclude_swap (exclude fire_mask skin) cloth tomato).
    reflexivity.
  - rewrite (exclude_swap (exclude fire_mask cloth) tomato skin).
    rewrite (exclude_swap fire_mask cloth skin).
    apply exclude_swap.
Qed.

(** ** The shape classifier *)

Ltac bool_to_Q :=
  repeat match goal with
  | H : (_ || _)%bool = true |- _ => apply orb_true_iff in H; destruct H
  | H : (_ || _)%bool = false |- _ => apply orb_false_iff in H; destruct H
  | H : Qlt_bool _ _ = true |- _ => apply Qlt_bool_iff in H
  | H : Qlt_bool _ _ = false |- _ => apply Qlt_bool_false_iff in H
  | H : Qeq_bool _ _ = true |- _ => apply Qeq_bool_iff in H
  | H : Qeq_bool _ _ = false |- _ => apply Qeq_bool_false_iff in H
  end.

Ltac rejected :=
  split; [ discriminate | intros; bool_to_Q; exfalso; intuition lra ].

Lemma strict_shape_gates `{OpenCV} (contour : Contour) :
  FireDetection.is_fire_like_shape contour = Some true <->
  area_gate contour FireDetection.min_fire_area FireDetection.max_fire_area
  /\ circularity_gate contour (25 # 100) (7 # 10)
  /\ aspect_gate contour (6 # 10) (18 # 10)
  /\ solidity_gate contour (4 # 10) (85 # 100).
Proof.
  unfold FireDetection.is_fire_like_shape, area_gate, circularity_gate,
    aspect_gate, solidity_gate, circularity_of, aspect_ratio_of, solidity_of,
    FireDetection.min_fire_area, FireDetection.max_fire_area.
  set (area := contourArea contour).
  set (perimeter := arcLength contour).
  set (rect := minAreaRect_size contour).
  set (hull_area := contourArea (convexHull contour)).
  cbv zeta.
  destruct (Qlt_bool area 800 || Qlt_bool 80000 area) eqn:Harea; [ rejected |].
  destruct (Qeq_bool perimeter 0) eqn:Hper; [ rejected |].
  rewrite fdiv_defined
    by (apply square_nonzero; now apply Qeq_bool_false_iff).
  cbn [bind].
  set (circularity := (4 * np_pi * area / (perimeter * perimeter))%Q).
  destruct (Qlt_bool (7 # 10) circularity) eqn:Hc1; [ rejected |].
  destruct (Qlt_bool circularity (25 # 100)) eqn:Hc2; [ rejected |].
  destruct (Qeq_bool (fst rect) 0) eqn:Hw; [ rejected |].
  rewrite fdiv_defined by now apply Qeq_bool_false_iff.
  cbn [bind].
  set (aspect_ratio := (snd rect / fst rect)%Q).
  destruct (Qlt_bool (18 # 10) aspect_ratio || Qlt_bool aspect_ratio (6 # 10))
    eqn:Hasp; [ rejected |].
  destruct (Qeq_bool hull_area 0) eqn:Hh; [ rejected |].
  rewrite fdiv_defined by now apply Qeq_bool_false_iff.
  cbn [bind].
  set (solidity := (area / hull_area)%Q).
  destruct (Qlt_bool (85 # 100) solidity) eqn:Hs1; [ rejected |].
  destruct (Qlt_bool solidity (4 # 10)) eqn:Hs2; [ rejected |].
  bool_to_Q. split; [ intros _ | reflexivity ].
  repeat split; assumption.
Qed.

Lemma advanced_shape_gates `{OpenCV} (contour : Contour) :
  FireDetectionAdvanced.is_fire_like_shape contour = Some true <->
  area_gate contour FireDetectionAdvanced.min_fire_area
    FireDetectionAdvanced.max_fire_area
  /\ (~ (arcLength contour == 0)%Q /\ (circularity_of contour <= 8 # 10)%Q)
  /\ aspect_gate contour (3 # 10) 3.
Proof.
  unfold FireDetectionAdvanced.is_fire_like_shape, area_gate, aspect_gate,
    circularity_of, aspect_ratio_of,
    FireDetectionAdvanced.min_fire_area, FireDetectionAdvanced.max_fire_area.
  set (area := contourArea contour).
  set (perimeter := arcLength contour).
  set (rect := minAreaRect_size contour).
  cbv zeta.
  destruct (Qlt_bool area 500 || Qlt_bool 100000 area) eqn:Harea;
    [ rejected |].
  destruct (Qeq_bool perimeter 0) eqn:Hper; [ rejected |].
  rewrite fdiv_defined
    by (apply square_nonzero; now apply Qeq_bool_false_iff).
  cbn [bind].
  set (circularity := (4 * np_pi * area / (perimeter * perimeter))%Q).
  destruct (Qlt_bool (8 # 10) circularity) eqn:Hc1; [ rejected |].
  destruct (Qeq_bool (fst rect) 0) eqn:Hw; [ rejected |].
  rewrite fdiv_defined by now apply Qeq_bool_false_iff.
  cbn [bind].
  set (aspect_ratio := (snd rect / fst rect)%Q).
  destruct (Qlt_bool 3 aspect_ratio || Qlt_bool aspect_ratio (3 # 10))
    eqn:Hasp; [ rejected |].
  bool_to_Q. split; [ intros _ | reflexivity ].
  repeat split; assumption.
Qed.

(** Every division of the classifiers is guarded: they always answer. *)
Lemma strict_shape_total `{OpenCV} (contour : Contour) :
  exists b, FireDetection.is_fire_like_shape contour = Some b.
Proof.
  unfold FireDetection.is_fire_like_shape. cbv zeta.
  destruct (_ || _); [ now exists false |].
  destruct (Qeq_bool (arcLength contour) 0) eqn:Hper; [ now exists false |].
  rewrite fdiv_defined
    by (apply square_nonzero; now apply Qeq_bool_false_iff).
  cbn [bind].
  destruct (Qlt_bool (7 # 10) _); [ now exists false |].
  destruct (Qlt_bool _ (25 # 100)); [ now exists false |].
  destruct (Qeq_bool (fst _) 0) eqn:Hw; [ now exists false |].
  rewrite fdiv_defined by now apply Qeq_bool_false_iff.
  cbn [bind].
  destruct (_ || _); [ now exists false |].
  destruct (Qeq_bool (contourArea _) 0) eqn:Hh; [ now exists false |].
  rewrite fdiv_defined by now apply Qeq_bool_false_iff.
  cbn [bind].
  destruct (Qlt_bool (85 # 100) _); [ now exists false |].
  destruct (Qlt_bool _ (4 # 10)); [ now exists false | now exists true ].
Qed.

Lemma advanced_shape_total `{OpenCV} (contour : Contour) :
  exists b, FireDetectionAdvanced.is_fire_like_shape contour = Some b.
Proof.
  unfold FireDetectionAdvanced.is_fire_like_shape. cbv zeta.
  destruct (_ || _); [ now exists false |].
  destruct (Qeq_bool (arcLength contour) 0) eqn:Hper; [ now exists false |].
  rewrite fdiv_defined
    by (apply square_nonzero; now apply Qeq_bool_false_iff).
  cbn [bind].
  destruct (Qlt_bool (8 # 10) _); [ now exists false |].
  destruct (Qeq_bool (fst _) 0) eqn:Hw; [ now exists false |].
  rewrite fdiv_defined by now apply Qeq_bool_false_iff.
  cbn [bind].
  destruct (_ || _); [ now exists false | now exists true ].
Qed.

Lemma shape_total `{OpenCV} (file : SourceFile) (contour : Contour) :
  exists b, self_is_fire_like_shape (FireDetector file) contour = Some b.
Proof.
  destruct file; [ apply strict_shape_total | apply advanced_shape_total ].
Qed.

(** C2 (as amended).  The classifier of [fire_detection.py] accepts a
    contour exactly when the four gates pass: area in [800, 80000],
    circularity in [0.25, 0.7] with a non-zero perimeter, aspect ratio in
    [0.6, 1.8] with a non-zero width, solidity in [0.4, 0.85] with a
    non-zero hull area.  The classifier of [fire_detection_advanced.py] is
    a separate function with three gates: area in [500, 100000],
    circularity at most 0.8 with a non-zero perimeter, aspect ratio in
    [0.3, 3] with a non-zero width; it has no lower circularity bound and
    no solidity gate.  Neither ever divides by zero. *)
Theorem shape_classifier_gates `{OpenCV} (contour : Contour) :
  (FireDetection.is_fire_like_shape contour = Some true <->
   area_gate contour 800 80000
   /\ circularity_gate contour (25 # 100) (7 # 10)
   /\ aspect_gate contour (6 # 10) (18 # 10)
   /\ solidity_gate contour (4 # 10) (85 # 100))
  /\ (FireDetectionAdvanced.is_fire_like_shape contour = Some true <->
      area_gate contour 500 100000
      /\ (~ (arcLength contour == 0)%Q
          /\ (circularity_of contour <= 8 # 10)%Q)
      /\ aspect_gate contour (3 # 10) 3)
  /\ (exists b, FireDetection.is_fire_like_shape contour = Some b)
  /\ (exists b, FireDetectionAdvanced.is_fire_like_shape contour = Some b).
Proof.
  split; [ apply strict_shape_gates |].
  split; [ apply advanced_shape_gates |].
  split; [ apply strict_shape_total | apply advanced_shape_total ].
Qed.

(** C2 as stated fails: the classifier of [fire_detection_advanced.py]
    accepts the round blob, whose circularity (about 0.74) is above 0.7 and
    whose solidity (about 0.95) is above 0.85; the classifier of
    [fire_detection.py] rejects the same contour. *)
Lemma shape_classifier_not_four_gates :
  @FireDetectionAdvanced.is_fire_like_shape Synthetic.camera
    Synthetic.round_blob = Some true
  /\ ~ @solidity_gate Synthetic.camera Synthetic.round_blob
         (4 # 10) (85 # 100)
  /\ ~ @circularity_gate Synthetic.camera Synthetic.round_blob
         (25 # 100) (7 # 10)
  /\ @FireDetection.is_fire_like_shape Synthetic.camera
       Synthetic.round_blob = Some false.
Proof.
  split; [ vm_compute; reflexivity |].
  split; [| split; [| vm_compute; reflexivity ] ].
  - intros (_ & _ & Hhi). vm_compute in Hhi. apply Hhi. reflexivity.
  - intros (_ & _ & Hhi). vm_compute in Hhi. apply Hhi. reflexivity.
Qed.

(** ** The flicker window *)

Lemma countNonZero_nonneg (m : Mask) : 0 <= countNonZero m.
Proof. unfold countNonZero. lia. Qed.

Lemma Forall_skipn {A} (P : A -> Prop) (n : nat) (l : list A) :
  Forall P l -> Forall P (skipn n l).
Proof.
  revert l. induction n as [| n IH]; intros [| x l] Hl; simpl; auto.
  inversion Hl; auto.
Qed.

Lemma deque_append_length {A} (n : nat) (d : list A) (x : A) :
  length (deque_append n d x) = Nat.min (S (length d)) n.
Proof.
  unfold deque_append. rewrite length_skipn, length_app. cbn [length]. lia.
Qed.

Lemma deque_append_nonneg (n : nat) (d : list Z) (x : Z) :
  Forall (fun a => 0 <= a) d -> 0 <= x ->
  Forall (fun a => 0 <= a) (deque_append n d x).
Proof.
  intros Hd Hx. unfold deque_append. apply Forall_skipn.
  apply Forall_app. split; [ assumption | constructor; auto ].
Qed.

Lemma deque_append_nonempty {A} (d : list A) (x : A) :
  deque_append 10 d x <> [].
Proof.
  intro E. apply (f_equal (@length A)) in E.
  rewrite deque_append_length in E. cbn [length] in E. lia.
Qed.

Lemma sumQ_nonneg (l : list Z) :
  Forall (fun a => 0 <= a) l -> (0 <= sumQ (map inject_Z l))%Q.
Proof.
  induction 1 as [| a l Ha _ IH]; simpl.
  - apply Qle_refl.
  - rewrite Zle_Qle in Ha. change (inject_Z 0) with 0%Q in Ha. lra.
Qed.

Lemma length_nonzero {A} (l : list A) :
  l <> [] -> ~ (inject_Z (Z.of_nat (length l)) == 0)%Q.
Proof.
  intro Hl. apply inject_Z_nonzero. destruct l; [ congruence | simpl; lia ].
Qed.

Lemma spec_mean_nonneg (l : list Z) :
  Forall (fun a => 0 <= a) l -> (0 <= spec_mean l)%Q.
Proof.
  intro Hl. unfold spec_mean, Qdiv. apply Qmult_le_0_compat.
  - now apply sumQ_nonneg.
  - apply Qinv_le_0_compat.
    rewrite <- (Zle_Qle 0). lia.
Qed.

Lemma np_mean_window (l : list Z) :
  l <> [] -> np_mean (map inject_Z l) = Some (spec_mean l).
Proof.
  intro Hl. unfold np_mean. rewrite length_map.
  now rewrite fdiv_defined by now apply length_nonzero.
Qed.

Lemma np_var_window (l : list Z) :
  l <> [] -> np_var (map inject_Z l) = Some (spec_variance l).
Proof.
  intro Hl. unfold np_var. rewrite (np_mean_window l Hl). cbn [bind].
  unfold np_mean. rewrite map_map, !length_map.
  now rewrite fdiv_defined by now apply length_nonzero.
Qed.

Section EngineFacts.
Context `{cv : OpenCV}.
Variable cls : DetectorClass.
Hypothesis required_positive : 0 < self_required_detections cls.
Hypothesis shape_answers :
  forall contour, exists b, self_is_fire_like_shape cls contour = Some b.

Lemma detect_flicker_spec (self : DetectorState) (fire_mask : Mask) :
  Forall (fun a => 0 <= a) (flicker_history self) ->
  let window :=
    deque_append 10 (flicker_history self) (countNonZero fire_mask) in
  Engine.detect_flicker cls self fire_mask =
  Some (if (length window <? 5)%nat then false
        else Qlt_bool (self_min_flicker_variance cls)
               (spec_normalized_variance window),
        set_flicker_history self window).
Proof.
  intros Hh window. unfold Engine.detect_flicker. cbv zeta.
  cbn [flicker_history set_flicker_history]. fold window.
  destruct (length window <? 5)%nat; [ reflexivity |].
  assert (Hw : window <> []) by apply deque_append_nonempty.
  rewrite (np_var_window window Hw). cbn [bind].
  rewrite (np_mean_window window Hw). cbn [bind].
  rewrite fdiv_defined; [ reflexivity |].
  assert (0 <= spec_mean window)%Q.
  { apply spec_mean_nonneg. apply deque_append_nonneg; auto.
    apply countNonZero_nonneg. }
  lra.
Qed.

Lemma detect_motion_spec (self : DetectorState) (gray_frame : GrayFrame)
  (fire_mask : Mask) :
  exists ratio,
    Engine.detect_motion self gray_frame fire_mask =
    Some (ratio, set_prev_gray self (Some gray_frame))
    /\ (prev_gray self = None -> ratio = 0%Q)
    /\ (countNonZero fire_mask = 0 -> ratio = 0%Q).
Proof.
  unfold Engine.detect_motion.
  destruct (prev_gray self) as [prev |].
  - cbv zeta. destruct (countNonZero fire_mask =? 0) eqn:E.
    + exists 0%Q. cbn [bind]. repeat split; auto.
    + apply Z.eqb_neq in E.
      rewrite fdiv_defined by now apply inject_Z_nonzero.
      cbn [bind]. eexists. split; [ reflexivity |].
      split; [ discriminate | intro; contradiction ].
  - exists 0%Q. repeat split; auto.
Qed.

Lemma for_contours_spec (contours : list Contour) (acc : list Contour * bool) :
  Engine.for_contours cls contours acc =
  Some (fst acc ++ filter (accepted cls) contours,
        snd acc || existsb (accepted cls) contours).
Proof.
  revert acc. induction contours as [| c cs IH]; intros [valid detected].
  - simpl. now rewrite app_nil_r, orb_false_r.
  - destruct (shape_answers c) as [b Hb].
    assert (Hacc : accepted cls c = b)
      by (unfold accepted; rewrite Hb; now destruct b).
    cbn [Engine.for_contours filter existsb]. rewrite Hb, Hacc. cbn [bind].
    rewrite IH. destruct b; cbn [fst snd orb].
    + now rewrite <- app_assoc, orb_true_r.
    + reflexivity.
Qed.

Lemma process_frame_spec (self : DetectorState) (frame : Frame) :
  Forall (fun a => 0 <= a) (flicker_history self) ->
  let fire_mask := self_detect_fire_color cls (cvtColor_BGR2HSV frame) in
  let contours := findContours fire_mask in
  let window :=
    deque_append 10 (flicker_history self) (countNonZero fire_mask) in
  exists r self',
    Engine.process_frame cls self frame = Some (r, self')
    /\ prev_gray self' = Some (cvtColor_BGR2GRAY frame)
    /\ flicker_history self' = window
    /\ has_flicker r =
         (if (length window <? 5)%nat then false
          else Qlt_bool (self_min_flicker_variance cls)
                 (spec_normalized_variance window))
    /\ (prev_gray self = None -> motion_ratio r = 0%Q)
    /\ (countNonZero fire_mask = 0 -> motion_ratio r = 0%Q)
    /\ consecutive_frames self' =
         (if existsb (accepted cls) contours
             && Qlt_bool (self_min_motion_threshold cls) (motion_ratio r)
             && has_flicker r
          then consecutive_frames self + 1
          else Z.max 0 (consecutive_frames self - 1))
    /\ fire_status r =
         (self_required_detections cls <=? consecutive_frames self')
    /\ confidence r =
         Qmin 100 (inject_Z (consecutive_frames self')
                   / inject_Z (self_required_detections cls) * 100)
    /\ marked_frame r =
         (frame, map boundingRect (filter (accepted cls) contours)).
Proof.
  intros Hh fire_mask contours window.
  unfold Engine.process_frame. cbv zeta. fold fire_mask.
  destruct (detect_motion_spec self (cvtColor_BGR2GRAY frame) fire_mask)
    as (ratio & Hm & Hfirst & Hempty).
  rewrite Hm. cbn [bind].
  unfold Engine.get_fire_contours. fold contours.
  rewrite for_contours_spec. cbn [bind fst snd app orb].
  rewrite detect_flicker_spec by exact Hh.
  cbn [bind flicker_history set_prev_gray]. fold window.
  set (flicker :=
         if (length window <? 5)%nat then false
         else Qlt_bool (self_min_flicker_variance cls)
                (spec_normalized_variance window)).
  assert (Hrd : ~ (inject_Z (self_required_detections cls) == 0)%Q)
    by (apply inject_Z_nonzero; lia).
  destruct (existsb (accepted cls) contours
            && Qlt_bool (self_min_motion_threshold cls) ratio
            && flicker) eqn:Hvote;
    rewrite fdiv_defined by exact Hrd; cbn [bind];
    eexists; eexists; (split; [ reflexivity |]);
    cbn [prev_gray flicker_history consecutive_frames set_consecutive_frames
         set_flicker_history set_prev_gray has_flicker motion_ratio
         fire_status confidence marked_frame];
    rewrite Hvote; repeat split; auto.
Qed.

Lemma process_frame_well_formed (self : DetectorState) (frame : Frame) :
  well_formed self ->
  exists r self',
    Engine.process_frame cls self frame = Some (r, self')
    /\ well_formed self'
    /\ length (flicker_history self') =
       Nat.min (S (length (flicker_history self))) 10
    /\ consecutive_frames self' <= consecutive_frames self + 1
    /\ prev_gray self' <> None.
Proof.
  intros [Hh Hc].
  destruct (process_frame_spec self frame Hh)
    as (r & self' & Hp & Hg & Hw & _ & _ & _ & Hcf & _).
  exists r, self'. split; [ exact Hp |].
  split; [ split |].
  - rewrite Hw. apply deque_append_nonneg; auto. apply countNonZero_nonneg.
  - rewrite Hcf. destruct (_ && _); lia.
  - rewrite Hw, deque_append_length. rewrite Hg.
    repeat split; [| discriminate ].
    rewrite Hcf. destruct (_ && _); lia.
Qed.

Lemma run_well_formed (frames : list Frame) :
  forall self, well_formed self ->
  (length (flicker_history self) <= 10)%nat ->
  exists rs self',
    Engine.run cls self frames = Some (rs, self')
    /\ well_formed self'
    /\ length rs = length frames
    /\ length (flicker_history self') =
       Nat.min (length (flicker_history self) + length frames) 10
    /\ consecutive_frames self' <=
       consecutive_frames self + Z.of_nat (length frames)
    /\ (frames <> [] -> prev_gray self' <> None).
Proof.
  induction frames as [| frame rest IH]; intros self Hwf Hten.
  - exists [], self. simpl. repeat split; try apply Hwf; try lia.
    congruence.
  - destruct (process_frame_well_formed self frame Hwf)
      as (r & s1 & Hp & Hwf1 & Hlen1 & Hc1 & Hg1).
    destruct (IH s1 Hwf1) as (rs & s2 & Hr & Hwf2 & Hn & Hlen2 & Hc2 & Hg2);
      [ lia |].
    exists (r :: rs), s2. cbn [Engine.run]. rewrite Hp. cbn [bind].
    rewrite Hr. cbn [bind]. split; [ reflexivity |].
    split; [ exact Hwf2 |]. cbn [length].
    split; [ lia |]. split; [ lia |]. split; [ lia |].
    intros _. destruct rest as [| f rest'].
    + simpl in Hr. inversion Hr; subst. exact Hg1.
    + apply Hg2. discriminate.
Qed.

Lemma state_after_spec (frames : list Frame) :
  exists self,
    state_after cls frames = Some self
    /\ well_formed self
    /\ length (flicker_history self) = Nat.min (length frames) 10
    /\ consecutive_frames self <= Z.of_nat (length frames)
    /\ (frames = [] -> self = init)
    /\ (frames <> [] -> prev_gray self <> None).
Proof.
  assert (Hinit : well_formed init) by (split; [ constructor | simpl; lia ]).
  destruct (run_well_formed frames init Hinit)
    as (rs & self & Hr & Hwf & _ & Hlen & Hc & Hg); [ simpl; lia |].
  exists self. unfold state_after. rewrite Hr. cbn [bind].
  split; [ reflexivity |]. split; [ exact Hwf |].
  simpl in Hlen, Hc. split; [ lia |]. split; [ lia |].
  split; [| exact Hg ].
  intros ->. simpl in Hr. now inversion Hr.
Qed.

End EngineFacts.

(** ** The two detector classes satisfy the assumptions above *)

Lemma required_detections_positive `{OpenCV} (file : SourceFile) :
  0 < self_required_detections (FireDetector file).
Proof. destruct file; reflexivity. Qed.

Lemma motion_threshold_positive `{OpenCV} (file : SourceFile) :
  (0 < self_min_motion_threshold (FireDetector file))%Q.
Proof. destruct file; reflexivity. Qed.

(** What is known of the frame processed after [frames] by a fresh detector
    of [file]: names the state before, the result and the state after. *)
Ltac processed file frames frame :=
  let cls := constr:(FireDetector file) in
  destruct (state_after_spec cls (required_detections_positive file)
              (shape_total file) frames)
    as (self & Hs & [Hh Hc] & Hlen & Hcn & Hi & Hg);
  destruct (process_frame_spec cls (required_detections_positive file)
              (shape_total file) self frame Hh)
    as (r & self' & Hp & Hgray & Hwin & Hfl & Hm1 & Hm0 & Hcf & Hfs
        & Hconf & Hmark).

(** ** The decision engine *)

(** C1.  For every frame processed by a detector of either file, after any
    sequence of earlier frames: the vote is the conjunction of "some contour
    is accepted by the shape classifier", "the motion ratio exceeds the
    motion threshold" and "flicker is reported"; a vote adds exactly one to
    the counter, a frame without vote leaves [max 0 (counter - 1)]; the
    counter is never negative; and the alert is raised exactly when the
    counter has reached the required number of detections. *)
Theorem vote_and_counter `{OpenCV} (file : SourceFile)
  (frames : list Frame) (frame : Frame) :
  let cls := FireDetector file in
  exists self r self',
    state_after cls frames = Some self
    /\ Engine.process_frame cls self frame = Some (r, self')
    /\ let contours :=
         findContours (self_detect_fire_color cls (cvtColor_BGR2HSV frame)) in
       let vote :=
         existsb (accepted cls) contours
         && Qlt_bool (self_min_motion_threshold cls) (motion_ratio r)
         && has_flicker r in
       consecutive_frames self' =
         (if vote then consecutive_frames self + 1
          else Z.max 0 (consecutive_frames self - 1))
       /\ 0 <= consecutive_frames self'
       /\ (fire_status r = true <->
           self_required_detections cls <= consecutive_frames self').
Proof.
  intro cls. processed file frames frame.
  exists self, r, self'. split; [ exact Hs |]. split; [ exact Hp |].
  cbv zeta. split; [ exact Hcf |]. split.
  - rewrite Hcf. destruct (_ && _); lia.
  - rewrite Hfs. apply Z.leb_le.
Qed.

(** C3 (as amended).  After every sequence of frames the counter is at least
    0 and at most the number of frames processed.  It is not held at the
    required number of detections. *)
Theorem counter_bounds `{OpenCV} (file : SourceFile) (frames : list Frame) :
  exists self,
    state_after (FireDetector file) frames = Some self
    /\ 0 <= consecutive_frames self <= Z.of_nat (length frames).
Proof.
  destruct (state_after_spec (FireDetector file)
              (required_detections_positive file) (shape_total file) frames)
    as (self & Hs & [_ Hc] & _ & Hcn & _).
  exists self. split; [ exact Hs | lia ].
Qed.

Lemma flickering_flame_counter :
  option_map consecutive_frames
    (@state_after Synthetic.camera (FireDetector fire_detection_py)
       Synthetic.flickering_flame) = Some 6.
Proof. vm_compute. reflexivity. Qed.

(** C3 as stated fails: after the ten frames of the flickering flame the
    counter of the detector of [fire_detection.py] is 6, above its 5
    required detections. *)
Lemma counter_exceeds_required_detections :
  exists self : @DetectorState Synthetic.camera,
    @state_after Synthetic.camera (FireDetector fire_detection_py)
      Synthetic.flickering_flame = Some self
    /\ consecutive_frames self = 6
    /\ @self_required_detections Synthetic.camera
         (FireDetector fire_detection_py) = 5.
Proof.
  pose proof flickering_flame_counter as E.
  destruct (@state_after Synthetic.camera (FireDetector fire_detection_py)
              Synthetic.flickering_flame) as [self |]; [| discriminate ].
  exists self. split; [ reflexivity |]. split; [| reflexivity ].
  cbn [option_map] in E. now inversion E.
Qed.

(** ** The newest sample of the flicker window *)

Lemma skipn_snoc_last {A} (n : nat) (d : list A) (x d0 : A) :
  (n <= length d)%nat -> last (skipn n (d ++ [x])) d0 = x.
Proof.
  intro Hn. rewrite skipn_app.
  replace (n - length d)%nat with 0%nat by lia.
  cbn [skipn]. apply last_last.
Qed.

Lemma deque_append_last {A} (n : nat) (d : list A) (x d0 : A) :
  (0 < n)%nat -> last (deque_append n d x) d0 = x.
Proof.
  intro Hn. unfold deque_append. apply skipn_snoc_last.
  rewrite length_app. cbn [length]. lia.
Qed.

Lemma countNonZero_blank (m : Mask) :
  Forall (Forall (fun pixel => pixel = 0)) m -> countNonZero m = 0.
Proof.
  intro Hm. unfold countNonZero.
  assert (E : filter (fun x => negb (x =? 0)) (concat m) = []).
  { induction Hm as [| row rows Hrow _ IH]; [ reflexivity |].
    cbn [concat]. rewrite filter_app, IH, app_nil_r.
    induction Hrow as [| p ps Hp _ IHrow]; [ reflexivity |].
    cbn [filter]. subst p. cbn. exact IHrow. }
  now rewrite E.
Qed.

(** ** The motion estimator *)

(** C5.  [detect_motion] always returns a ratio (no division by zero) and
    always retains the current grey frame.  The ratio is 0 when the mask has
    no set pixel, and 0 on a first call, where nothing but the current frame
    enters the result.  Hence the first frame processed by a fresh detector
    of either file has motion ratio 0 and does not raise the alert. *)
Theorem motion_estimator_total `{OpenCV} (self : DetectorState)
  (gray_frame : GrayFrame) (fire_mask : Mask)
  (file : SourceFile) (frame : Frame) :
  (exists ratio,
     Engine.detect_motion self gray_frame fire_mask =
     Some (ratio, set_prev_gray self (Some gray_frame))
     /\ (countNonZero fire_mask = 0 -> ratio = 0%Q))
  /\ Engine.detect_motion init gray_frame fire_mask =
     Some (0%Q, set_prev_gray init (Some gray_frame))
  /\ (exists r self',
        Engine.process_frame (FireDetector file) init frame = Some (r, self')
        /\ motion_ratio r = 0%Q
        /\ fire_status r = false
        /\ prev_gray self' = Some (cvtColor_BGR2GRAY frame)).
Proof.
  split; [| split ].
  - destruct (detect_motion_spec self gray_frame fire_mask)
      as (ratio & Hm & _ & Hz).
    exists ratio. split; assumption.
  - reflexivity.
  - assert (Hh : Forall (fun a => 0 <= a) (flicker_history init))
      by constructor.
    destruct (process_frame_spec (FireDetector file)
                (required_detections_positive file) (shape_total file)
                init frame Hh)
      as (r & self' & Hp & Hgray & _ & _ & Hm1 & _ & Hcf & Hfs & _).
    exists r, self'. split; [ exact Hp |].
    assert (Hr : motion_ratio r = 0%Q) by (apply Hm1; reflexivity).
    split; [ exact Hr |]. split; [| exact Hgray ].
    rewrite Hfs, Hcf, Hr.
    assert (Hno : Qlt_bool (self_min_motion_threshold (FireDetector file)) 0
                  = false).
    { apply Qlt_bool_false_iff. apply Qlt_le_weak.
      apply motion_threshold_positive. }
    rewrite Hno, andb_false_r. cbn [andb consecutive_frames init].
    destruct file; reflexivity.
Qed.

(** ** The flicker tracker *)

(** C6.  For every frame processed by a detector of either file, after any
    sequence of earlier frames: flicker is reported false while the window
    holds fewer than 5 samples, whatever they are, which is the case of the
    first four frames; with 5 samples or more, flicker is reported exactly
    when [variance / (mean + 1)] of the window exceeds the threshold. *)
Theorem flicker_warm_up `{OpenCV} (file : SourceFile)
  (frames : list Frame) (frame : Frame) :
  let cls := FireDetector file in
  exists self r self',
    state_after cls frames = Some self
    /\ Engine.process_frame cls self frame = Some (r, self')
    /\ let window := flicker_history self' in
       ((length window < 5)%nat -> has_flicker r = false)
       /\ ((length frames < 4)%nat -> has_flicker r = false)
       /\ ((5 <= length window)%nat ->
           (has_flicker r = true <->
            (self_min_flicker_variance cls
             < spec_normalized_variance window)%Q)).
Proof.
  intro cls. processed file frames frame.
  exists self, r, self'. split; [ exact Hs |]. split; [ exact Hp |].
  cbv zeta. rewrite Hwin in *. rewrite Hfl.
  assert (Hn : length (deque_append 10 (flicker_history self)
                         (countNonZero
                            (self_detect_fire_color (FireDetector file)
                               (cvtColor_BGR2HSV frame))))
               = Nat.min (S (length frames)) 10).
  { rewrite deque_append_length, Hlen. lia. }
  split; [| split ].
  - intro Hlt. apply Nat.ltb_lt in Hlt. now rewrite Hlt.
  - intro Hlt.
    assert (Hw : (length (deque_append 10 (flicker_history self)
                            (countNonZero
                               (self_detect_fire_color (FireDetector file)
                                  (cvtColor_BGR2HSV frame)))) <? 5)%nat
                 = true) by (apply Nat.ltb_lt; lia).
    now rewrite Hw.
  - intro Hge.
    assert (Hw : (length (deque_append 10 (flicker_history self)
                            (countNonZero
                               (self_detect_fire_color (FireDetector file)
                                  (cvtColor_BGR2HSV frame)))) <? 5)%nat
                 = false) by (apply Nat.ltb_ge; lia).
    rewrite Hw. apply Qlt_bool_iff.
Qed.

(** C10.  Every [process_frame] call appends exactly one sample to the
    flicker window, the number of non-zero pixels of the current mask, with
    the oldest sample dropped beyond ten; the sample is 0 when every mask
    pixel is 0.  Hence after [n] frames the window holds [min n 10] samples,
    whatever the frames show, and reaches 5 with the fifth frame. *)
Theorem flicker_sample_every_frame `{OpenCV} (file : SourceFile)
  (frames : list Frame) (frame : Frame) :
  let cls := FireDetector file in
  let fire_mask := self_detect_fire_color cls (cvtColor_BGR2HSV frame) in
  exists self r self',
    state_after cls frames = Some self
    /\ Engine.process_frame cls self frame = Some (r, self')
    /\ flicker_history self' =
       deque_append 10 (flicker_history self) (countNonZero fire_mask)
    /\ last (flicker_history self') 0 = countNonZero fire_mask
    /\ length (flicker_history self) = Nat.min (length frames) 10
    /\ length (flicker_history self') = Nat.min (S (length frames)) 10
    /\ (Forall (Forall (fun pixel => pixel = 0)) fire_mask ->
        countNonZero fire_mask = 0).
Proof.
  intros cls fire_mask. processed file frames frame.
  exists self, r, self'. split; [ exact Hs |]. split; [ exact Hp |].
  fold cls fire_mask in Hwin. rewrite Hwin.
  split; [ reflexivity |]. split; [| split; [ exact Hlen | split ] ].
  - apply deque_append_last. lia.
  - rewrite deque_append_length, Hlen. lia.
  - apply countNonZero_blank.
Qed.

(** ** Confidence *)

Lemma confidence_formula (consecutive required : Z) :
  0 < required ->
  (Qmin 100 (inject_Z consecutive / inject_Z required * 100)
   == spec_confidence consecutive required)%Q.
Proof.
  intro Hr. unfold spec_confidence. apply Q.min_compat; [ reflexivity |].
  field. apply inject_Z_nonzero. lia.
Qed.

Lemma confidence_monotone (c1 c2 required : Z) :
  0 < required -> c1 <= c2 ->
  (Qmin 100 (inject_Z c1 / inject_Z required * 100)
   <= Qmin 100 (inject_Z c2 / inject_Z required * 100))%Q.
Proof.
  intros Hr Hc. apply Q.min_le_compat_l.
  apply Qmult_le_compat_r; [| discriminate ].
  unfold Qdiv. apply Qmult_le_compat_r.
  - now rewrite <- Zle_Qle.
  - apply Qinv_le_0_compat. rewrite <- (Zle_Qle 0). lia.
Qed.

(** C7.  For every frame processed by a detector of either file, after any
    sequence of earlier frames, the confidence is
    [min(100, 100 * counter / required)] for the counter after the frame; it
    never exceeds 100; and of two processed frames, the one that leaves the
    smaller counter has the smaller or equal confidence. *)
Theorem confidence_capped_monotone `{OpenCV} (file : SourceFile)
  (frames1 : list Frame) (frame1 : Frame)
  (frames2 : list Frame) (frame2 : Frame) :
  let cls := FireDetector file in
  exists self1 r1 self1' self2 r2 self2',
    state_after cls frames1 = Some self1
    /\ Engine.process_frame cls self1 frame1 = Some (r1, self1')
    /\ state_after cls frames2 = Some self2
    /\ Engine.process_frame cls self2 frame2 = Some (r2, self2')
    /\ (confidence r1 ==
        spec_confidence (consecutive_frames self1')
          (self_required_detections cls))%Q
    /\ (confidence r1 <= 100)%Q
    /\ (consecutive_frames self1' <= consecutive_frames self2' ->
        (confidence r1 <= confidence r2)%Q).
Proof.
  intro cls.
  pose proof (required_detections_positive file) as Hrd.
  destruct (state_after_spec cls Hrd (shape_total file) frames1)
    as (self1 & Hs1 & [Hh1 _] & _).
  destruct (process_frame_spec cls Hrd (shape_total file) self1 frame1 Hh1)
    as (r1 & self1' & Hp1 & _ & _ & _ & _ & _ & _ & _ & Hconf1 & _).
  destruct (state_after_spec cls Hrd (shape_total file) frames2)
    as (self2 & Hs2 & [Hh2 _] & _).
  destruct (process_frame_spec cls Hrd (shape_total file) self2 frame2 Hh2)
    as (r2 & self2' & Hp2 & _ & _ & _ & _ & _ & _ & _ & Hconf2 & _).
  exists self1, r1, self1', self2, r2, self2'.
  repeat (split; [ assumption |]).
  rewrite Hconf1, Hconf2. split; [| split ].
  - now apply confidence_formula.
  - apply Q.le_min_l.
  - intro Hc. now apply confidence_monotone.
Qed.

(** ** Loading [fire_detection_advanced.py] *)

Section ModuleLoading.
Import String.
Local Open Scope string_scope.

Lemma imports_available_advanced (available : string -> bool) :
  forallb available (PyModule.imports_of PyModule.fire_detection_advanced)
  = true ->
  available "cv2" = true /\ available "numpy" = true
  /\ available "collections" = true
  /\ available "time" = true /\ available "datetime" = true
  /\ available "winsound" = true.
Proof.
  cbn [PyModule.imports_of PyModule.fire_detection_advanced flat_map app
       forallb].
  rewrite !andb_true_iff. tauto.
Qed.

(** C9 (as amended).  Loading [fire_detection_advanced.py], as a module or
    as a script, never succeeds, whatever can be imported: the class
    statement of [FireDetectorWithAlert] names its base [FireDetector]
    before any statement has bound that name.  When the six imports above
    it succeed the error raised is the [NameError] for [FireDetector];
    when one of them cannot be found the error is the
    [ModuleNotFoundError] of an import that is not available, raised before
    the class statement is reached.  In every case neither class is ever
    bound, so [FireDetectorWithAlert] cannot be constructed. *)
Theorem advanced_module_never_loads (available : string -> bool)
  (as_script : bool) :
  let loaded :=
    PyModule.load available as_script PyModule.fire_detection_advanced in
  (forall globals, loaded <> PyModule.Loaded globals)
  /\ ~ In "FireDetectorWithAlert" (PyModule.globals_of loaded)
  /\ ~ In "FireDetector" (PyModule.globals_of loaded)
  /\ (forallb available (PyModule.imports_of PyModule.fire_detection_advanced)
      = true ->
      exists globals,
        loaded = PyModule.Raised (PyModule.NameError "FireDetector") globals)
  /\ (forallb available (PyModule.imports_of PyModule.fire_detection_advanced)
      = false ->
      exists module globals,
        loaded = PyModule.Raised (PyModule.ModuleNotFoundError module) globals
        /\ available module = false).
Proof.
  intro loaded. unfold loaded, PyModule.load, PyModule.fire_detection_advanced.
  cbn [PyModule.exec].
  split; [| split; [| split; [| split ] ] ].
  - intros globals.
    repeat match goal with
    | |- context [if available ?m then _ else _] =>
        destruct (available m); [| discriminate ]
    end.
    cbn. discriminate.
  - repeat match goal with
    | |- context [if available ?m then _ else _] =>
        destruct (available m);
        [| cbn; intuition discriminate ]
    end.
    cbn. intuition discriminate.
  - repeat match goal with
    | |- context [if available ?m then _ else _] =>
        destruct (available m);
        [| cbn; intuition discriminate ]
    end.
    cbn. intuition discriminate.
  - intro Hall. apply imports_available_advanced in Hall.
    destruct Hall as (H1 & H2 & H3 & H4 & H5 & H6).
    rewrite H1, H2, H3, H4, H5, H6. cbn. eexists. reflexivity.
  - cbn [PyModule.imports_of flat_map app forallb].
    repeat match goal with
    | |- context [if available ?m then _ else _] =>
        destruct (available m) eqn:?;
        [| intros _; do 2 eexists; split; [ reflexivity | assumption ] ]
    end.
    cbn. discriminate.
Qed.

(** With every import available, loading raises the [NameError]. *)
Lemma advanced_module_name_error :
  exists globals,
    PyModule.load (fun _ => true) false PyModule.fire_detection_advanced =
    PyModule.Raised (PyModule.NameError "FireDetector") globals.
Proof.
  apply (proj1 (proj2 (proj2 (proj2
           (advanced_module_never_loads (fun _ => true) false))))).
  reflexivity.
Defined.

(** C9 as stated fails: where [winsound] cannot be imported, as on every
    interpreter that is not on Windows, loading stops at [import winsound]
    with a [ModuleNotFoundError], before the class statement is reached; the
    error is not a [NameError]. *)
Lemma advanced_module_import_error :
  PyModule.load (fun module => negb (module =? "winsound")) false
    PyModule.fire_detection_advanced
  = PyModule.Raised (PyModule.ModuleNotFoundError "winsound")
      ["datetime"; "time"; "deque"; "np"; "cv2"]
  /\ (forall name globals,
        PyModule.load (fun module => negb (module =? "winsound")) false
          PyModule.fire_detection_advanced
        <> PyModule.Raised (PyModule.NameError name) globals).
Proof.
  split; [ reflexivity | intros name globals; discriminate ].
Qed.

End ModuleLoading.

(** ** The detectors on the synthetic camera *)

(** On the flickering flame the detector of [fire_detection.py] raises the
    alert from the ninth frame on: the first frame has no motion, the first
    four have no flicker, and five votes are required. *)
Example strict_alert_on_flickering_flame :
  option_map (fun out => map fire_status (fst out))
    (@Engine.run Synthetic.camera (FireDetector fire_detection_py) init
       Synthetic.flickering_flame)
  = Some [false; false; false; false; false; false; false; false; true; true].
Proof. vm_compute. reflexivity. Qed.

(** The detector of [fire_detection_advanced.py], with three required
    detections, raises it from the seventh frame on. *)
Example advanced_alert_on_flickering_flame :
  option_map (fun out => map fire_status (fst out))
    (@Engine.run Synthetic.camera (FireDetector fire_detection_advanced_py)
       init Synthetic.flickering_flame)
  = Some [false; false; false; false; false; false; true; true; true; true].
Proof. vm_compute. reflexivity. Qed.

(** A steady flame never flickers, so neither detector ever votes. *)
Example no_alert_on_steady_flame (file : SourceFile) :
  option_map (fun out => (map fire_status (fst out),
                          consecutive_frames (snd out)))
    (@Engine.run Synthetic.camera (FireDetector file) init
       (repeat (Synthetic.scene 25) 10))
  = Some (repeat false 10, 0).
Proof. destruct file; vm_compute; reflexivity. Qed.

Section ModuleLoadingExample.
Import String.
Local Open Scope string_scope.

(** [fire_detection.py] itself loads, and binds [FireDetector]. *)
Example fire_detection_module_loads :
  PyModule.load (fun _ => true) true PyModule.fire_detection
  = PyModule.Loaded
      ["main"; "FireDetector"; "datetime"; "time"; "deque"; "np"; "cv2"].
Proof. reflexivity. Qed.

End ModuleLoadingExample.

(** * Further properties of the code *)

(** ** Colour segmentation, pixel by pixel *)

Lemma image_map_map {A B C} (f : B -> C) (g : A -> B) (img : Image A) :
  image_map f (image_map g img) = image_map (fun p => f (g p)) img.
Proof.
  unfold image_map. rewrite map_map. apply map_ext. intro row. apply map_map.
Qed.

Lemma map2_map_same {A B C D} (f : B -> C -> D) (g : A -> B) (h : A -> C)
  (l : list A) :
  map2 f (map g l) (map h l) = map (fun p => f (g p) (h p)) l.
Proof. induction l as [| a l IH]; simpl; [ reflexivity | now rewrite IH ]. Qed.

Lemma image_map2_same {A B C D} (f : B -> C -> D) (g : A -> B) (h : A -> C)
  (img : Image A) :
  image_map2 f (image_map g img) (image_map h img)
  = image_map (fun p => f (g p) (h p)) img.
Proof.
  unfold image_map2, image_map. rewrite map2_map_same.
  apply map_ext. intro row. apply map2_map_same.
Qed.

Lemma image_map_ext {A B} (f g : A -> B) (img : Image A) :
  (forall p, f p = g p) -> image_map f img = image_map g img.
Proof.
  intro E. unfold image_map. apply map_ext. intro row. now apply map_ext.
Qed.

Ltac split_comparisons :=
  repeat match goal with
  | |- context [Z.leb ?a ?b] =>
      destruct (Z.leb_spec a b); try (exfalso; lia)
  | |- context [Z.eqb ?a ?b] =>
      destruct (Z.eqb_spec a b); try (exfalso; lia)
  end.

Ltac pointwise_masks :=
  unfold exclude, bitwise_and, bitwise_or, bitwise_not, inRange;
  repeat (rewrite image_map2_same || rewrite image_map_map).

Lemma strict_pixel (p : HSVPixel) :
  let band lo hi := in_range_pixel lo hi p in
  let minus x y := Z.land x (Z.lxor y 255) in
  minus
    (minus
       (minus
          (Z.lor
             (band FireDetection.lower_fire_red1 FireDetection.upper_fire_red1)
             (band FireDetection.lower_fire_red2 FireDetection.upper_fire_red2))
          (band FireDetection.lower_skin FireDetection.upper_skin))
       (Z.lor
          (band FireDetection.lower_tomato_red1
             FireDetection.upper_tomato_red1)
          (band FireDetection.lower_tomato_red2
             FireDetection.upper_tomato_red2)))
    (Z.lor
       (band FireDetection.lower_cloth_red1 FireDetection.upper_cloth_red1)
       (band FireDetection.lower_cloth_red2 FireDetection.upper_cloth_red2))
  = strict_fire_pixel p.
Proof.
  destruct p as [[h s] v]. cbv zeta.
  unfold in_range_pixel, strict_fire_pixel, hue_near_red.
  cbv [FireDetection.lower_fire_red1 FireDetection.upper_fire_red1
       FireDetection.lower_fire_red2 FireDetection.upper_fire_red2
       FireDetection.lower_skin FireDetection.upper_skin
       FireDetection.lower_tomato_red1 FireDetection.upper_tomato_red1
       FireDetection.lower_tomato_red2 FireDetection.upper_tomato_red2
       FireDetection.lower_cloth_red1 FireDetection.upper_cloth_red1
       FireDetection.lower_cloth_red2 FireDetection.upper_cloth_red2].
  split_comparisons; reflexivity.
Qed.

Lemma advanced_pixel (p : HSVPixel) :
  let band lo hi := in_range_pixel lo hi p in
  Z.land
    (Z.lor
       (band FireDetectionAdvanced.lower_fire_red1
          FireDetectionAdvanced.upper_fire_red1)
       (band FireDetectionAdvanced.lower_fire_red2
          FireDetectionAdvanced.upper_fire_red2))
    (Z.lxor
       (Z.lor
          (band FireDetectionAdvanced.lower_cloth_red1
             FireDetectionAdvanced.upper_cloth_red1)
          (band FireDetectionAdvanced.lower_cloth_red2
             FireDetectionAdvanced.upper_cloth_red2))
       255)
  = advanced_fire_pixel p.
Proof.
  destruct p as [[h s] v]. cbv zeta.
  unfold in_range_pixel, advanced_fire_pixel, hue_near_red.
  cbv [FireDetectionAdvanced.lower_fire_red1
       FireDetectionAdvanced.upper_fire_red1
       FireDetectionAdvanced.lower_fire_red2
       FireDetectionAdvanced.upper_fire_red2
       FireDetectionAdvanced.lower_cloth_red1
       FireDetectionAdvanced.upper_cloth_red1
       FireDetectionAdvanced.lower_cloth_red2
       FireDetectionAdvanced.upper_cloth_red2].
  split_comparisons; reflexivity.
Qed.

Lemma strict_fire_band_only (p : HSVPixel) :
  Z.lor
    (in_range_pixel FireDetection.lower_fire_red1
       FireDetection.upper_fire_red1 p)
    (in_range_pixel FireDetection.lower_fire_red2
       FireDetection.upper_fire_red2 p)
  = 255 ->
  in_range_pixel FireDetection.lower_skin FireDetection.upper_skin p = 0
  /\ in_range_pixel FireDetection.lower_cloth_red1
       FireDetection.upper_cloth_red1 p = 0
  /\ in_range_pixel FireDetection.lower_cloth_red2
       FireDetection.upper_cloth_red2 p = 0.
Proof.
  destruct p as [[h s] v].
  unfold in_range_pixel.
  cbv [FireDetection.lower_fire_red1 FireDetection.upper_fire_red1
       FireDetection.lower_fire_red2 FireDetection.upper_fire_red2
       FireDetection.lower_skin FireDetection.upper_skin
       FireDetection.lower_cloth_red1 FireDetection.upper_cloth_red1
       FireDetection.lower_cloth_red2 FireDetection.upper_cloth_red2].
  split_comparisons; cbn; intro E; try discriminate; repeat split.
Qed.

(** X1.  In [fire_detection.py] the mask that [detect_fire_color] hands to
    the two morphology passes is the pixel-wise threshold
    [strict_fire_pixel]: 255 where the hue is in 0..15 or 175..180, the
    saturation in 140..255 and the value in 150..255, except at saturation
    140 with value 150, and 0 elsewhere. *)
Theorem strict_mask_pixelwise `{OpenCV} (hsv_frame : HSVFrame) :
  FireDetection.detect_fire_color hsv_frame =
  morphologyEx
    (morphologyEx (strict_thresholded hsv_frame) MORPH_OPEN 2) MORPH_CLOSE 2
  /\ strict_thresholded hsv_frame = image_map strict_fire_pixel hsv_frame.
Proof.
  split; [ reflexivity |].
  unfold strict_thresholded, FireDetection.skin_mask,
    FireDetection.tomato_mask, FireDetection.cloth_mask. cbv zeta.
  pointwise_masks.
  apply image_map_ext. intro p. apply strict_pixel.
Qed.

(** X2.  In [fire_detection.py] the skin and the cloth exclusions never
    change the mask: removing them from the fire-band mask, in the code's
    order or alone, gives the fire-band mask back; only the tomato exclusion
    can clear a pixel. *)
Theorem skin_and_cloth_exclusions_idle (hsv_frame : HSVFrame) :
  let fire_band :=
    bitwise_or
      (inRange hsv_frame FireDetection.lower_fire_red1
         FireDetection.upper_fire_red1)
      (inRange hsv_frame FireDetection.lower_fire_red2
         FireDetection.upper_fire_red2) in
  exclude fire_band (FireDetection.skin_mask hsv_frame) = fire_band
  /\ exclude fire_band (FireDetection.cloth_mask hsv_frame) = fire_band
  /\ exclude
       (exclude
          (exclude fire_band (FireDetection.skin_mask hsv_frame))
          (FireDetection.tomato_mask hsv_frame))
       (FireDetection.cloth_mask hsv_frame)
     = exclude fire_band (FireDetection.tomato_mask hsv_frame).
Proof.
  intro fire_band.
  assert (Hskin : exclude fire_band (FireDetection.skin_mask hsv_frame)
                  = fire_band).
  { unfold fire_band, FireDetection.skin_mask. pointwise_masks.
    apply image_map_ext. intro p.
    pose proof (strict_fire_band_only p) as Hb.
    destruct p as [[h s] v].
    assert (Hv : forall lo hi, in_range_pixel lo hi (h, s, v) = 255
                               \/ in_range_pixel lo hi (h, s, v) = 0).
    { intros [[? ?] ?] [[? ?] ?]. unfold in_range_pixel.
      destruct (_ && _); auto. }
    destruct (Hv FireDetection.lower_fire_red1 FireDetection.upper_fire_red1)
      as [E1 | E1];
      destruct (Hv FireDetection.lower_fire_red2
                  FireDetection.upper_fire_red2) as [E2 | E2];
      rewrite E1, E2 in *; cbn [Z.lor Pos.lor] in *;
      try (destruct Hb as (-> & _ & _); reflexivity).
    reflexivity. }
  assert (Hcloth : exclude fire_band (FireDetection.cloth_mask hsv_frame)
                   = fire_band).
  { unfold fire_band, FireDetection.cloth_mask. cbv zeta. pointwise_masks.
    apply image_map_ext. intro p.
    pose proof (strict_fire_band_only p) as Hb.
    destruct p as [[h s] v].
    assert (Hv : forall lo hi, in_range_pixel lo hi (h, s, v) = 255
                               \/ in_range_pixel lo hi (h, s, v) = 0).
    { intros [[? ?] ?] [[? ?] ?]. unfold in_range_pixel.
      destruct (_ && _); auto. }
    destruct (Hv FireDetection.lower_fire_red1 FireDetection.upper_fire_red1)
      as [E1 | E1];
      destruct (Hv FireDetection.lower_fire_red2
                  FireDetection.upper_fire_red2) as [E2 | E2];
      rewrite E1, E2 in *; cbn [Z.lor Pos.lor] in *;
      try (destruct Hb as (_ & -> & ->); reflexivity).
    reflexivity. }
  split; [ exact Hskin |]. split; [ exact Hcloth |].
  rewrite Hskin.
  rewrite (exclude_swap fire_band (FireDetection.tomato_mask hsv_frame)
             (FireDetection.cloth_mask hsv_frame)).
  now rewrite Hcloth.
Qed.

(** X3.  In [fire_detection_advanced.py] the mask handed to the morphology
    passes is the pixel-wise threshold [advanced_fire_pixel]: 255 where the
    hue is in 0..25 or 170..180, the saturation in 100..255 and the value in
    100..255, except at saturation 100 with a value of 150 or less. *)
Theorem advanced_mask_pixelwise `{OpenCV} (hsv_frame : HSVFrame) :
  FireDetectionAdvanced.detect_fire_color hsv_frame =
  morphologyEx
    (morphologyEx (advanced_thresholded hsv_frame) MORPH_OPEN 2) MORPH_CLOSE 2
  /\ advanced_thresholded hsv_frame
     = image_map advanced_fire_pixel hsv_frame.
Proof.
  split; [ reflexivity |].
  unfold advanced_thresholded. cbv zeta. pointwise_masks.
  apply image_map_ext. intro p. apply advanced_pixel.
Qed.

Lemma strict_pixel_within_advanced (p : HSVPixel) :
  Z.land (strict_fire_pixel p) (advanced_fire_pixel p) = strict_fire_pixel p.
Proof.
  destruct p as [[h s] v].
  unfold strict_fire_pixel, advanced_fire_pixel, hue_near_red.
  split_comparisons; reflexivity.
Qed.

(** X4.  Before morphology, every pixel set in the mask of
    [fire_detection.py] is set in the mask of [fire_detection_advanced.py]
    for the same frame: and-ing the two masks gives the first. *)
Theorem strict_mask_within_advanced (hsv_frame : HSVFrame) :
  bitwise_and (strict_thresholded hsv_frame) (advanced_thresholded hsv_frame)
  = strict_thresholded hsv_frame.
Proof.
  assert (Hs : strict_thresholded hsv_frame
               = image_map strict_fire_pixel hsv_frame).
  { unfold strict_thresholded, FireDetection.skin_mask,
      FireDetection.tomato_mask, FireDetection.cloth_mask. cbv zeta.
    pointwise_masks. apply image_map_ext. intro p. apply strict_pixel. }
  assert (Ha : advanced_thresholded hsv_frame
               = image_map advanced_fire_pixel hsv_frame).
  { unfold advanced_thresholded. cbv zeta. pointwise_masks.
    apply image_map_ext. intro p. apply advanced_pixel. }
  rewrite Hs, Ha. unfold bitwise_and. rewrite image_map2_same.
  apply image_map_ext. intro p. apply strict_pixel_within_advanced.
Qed.

(** ** The two shape classifiers compared *)

(** X5.  Every contour that the classifier of [fire_detection.py] accepts
    is accepted by the classifier of [fire_detection_advanced.py]. *)
Theorem strict_shape_within_advanced `{OpenCV} (contour : Contour) :
  FireDetection.is_fire_like_shape contour = Some true ->
  FireDetectionAdvanced.is_fire_like_shape contour = Some true.
Proof.
  intro Hs. apply strict_shape_gates in Hs. apply advanced_shape_gates.
  unfold area_gate, circularity_gate, aspect_gate, solidity_gate,
    FireDetection.min_fire_area, FireDetection.max_fire_area,
    FireDetectionAdvanced.min_fire_area, FireDetectionAdvanced.max_fire_area
    in *.
  destruct Hs as ((Ha1 & Ha2) & (Hp & Hc1 & Hc2) & (Hw & Hr1 & Hr2) & _).
  repeat split; try assumption; lra.
Qed.

Lemma strict_shape_within_advanced_example :
  @FireDetectionAdvanced.is_fire_like_shape Synthetic.camera
    (Synthetic.blob 1000) = Some true.
Proof.
  apply (@strict_shape_within_advanced Synthetic.camera (Synthetic.blob 1000)).
  vm_compute. reflexivity.
Defined.

(** ** The motion ratio *)

Lemma moving_pixels_in_row (magnitude : list Q) (mask : list Z) :
  (length (filter (fun b : bool => b)
             (map (fun m => Qlt_bool 2 m)
                (map2 (fun m x => (m * (inject_Z x / 255))%Q) magnitude mask)))
   <= length (filter (fun x => negb (x =? 0)%Z) mask))%nat.
Proof.
  revert mask. induction magnitude as [| m ms IH]; intros [| x xs];
    cbn [map2 map filter length]; try lia.
  specialize (IH xs).
  destruct (Z.eqb_spec x 0) as [-> | Hx]; cbn [negb].
  - assert (E : Qlt_bool 2 (m * (inject_Z 0 / 255)) = false).
    { apply Qlt_bool_false_iff.
      assert (m * (inject_Z 0 / 255) == 0)%Q by (unfold Qdiv; ring). lra. }
    rewrite E. exact IH.
  - destruct (Qlt_bool 2 _); cbn [length]; lia.
Qed.

Lemma moving_pixels_in_mask (magnitude : Image Q) (mask : Mask) :
  Engine.count_true
    (image_map (fun m => Qlt_bool 2 m)
       (image_map2 (fun m x => (m * (inject_Z x / 255))%Q) magnitude mask))
  <= countNonZero mask.
Proof.
  unfold Engine.count_true, countNonZero, image_map, image_map2.
  apply inj_le. revert mask.
  induction magnitude as [| row rows IH]; intros [| mrow mrows];
    cbn [map2 map concat filter length]; try lia.
  rewrite !filter_app, !length_app.
  pose proof (moving_pixels_in_row row mrow). specialize (IH mrows). lia.
Qed.

(** X6.  The ratio that [detect_motion] returns always lies between 0 and
    1, whatever the flow field and the mask. *)
Theorem motion_ratio_in_unit_interval `{OpenCV} (self : DetectorState)
  (gray_frame : GrayFrame) (fire_mask : Mask) :
  exists ratio self',
    Engine.detect_motion self gray_frame fire_mask = Some (ratio, self')
    /\ (0 <= ratio <= 1)%Q.
Proof.
  unfold Engine.detect_motion.
  destruct (prev_gray self) as [prev |].
  - cbv zeta. destruct (countNonZero fire_mask =? 0) eqn:E.
    + cbn [bind]. do 2 eexists. split; [ reflexivity | lra ].
    + apply Z.eqb_neq in E.
      rewrite fdiv_defined by now apply inject_Z_nonzero.
      cbn [bind]. do 2 eexists. split; [ reflexivity |].
      pose proof (moving_pixels_in_mask (flow_magnitude prev gray_frame)
                    fire_mask) as Hle.
      pose proof (countNonZero_nonneg fire_mask) as Hpos.
      set (moving := Engine.count_true _) in *.
      assert (Hm : 0 <= moving) by (unfold moving, Engine.count_true; lia).
      assert (Hd : (0 < inject_Z (countNonZero fire_mask))%Q)
        by (rewrite <- (Zlt_Qlt 0); lia).
      split.
      * apply Qle_shift_div_l; [ exact Hd |].
        rewrite Qmult_0_l. rewrite <- (Zle_Qle 0). exact Hm.
      * apply Qle_shift_div_r; [ exact Hd |].
        rewrite Qmult_1_l. now rewrite <- Zle_Qle.
  - do 2 eexists. split; [ reflexivity | lra ].
Qed.

(** ** Sequences of frames, one frame at a time *)

Lemma run_app `{OpenCV} (cls : DetectorClass) (a b : list Frame) :
  forall self,
    Engine.run cls self (a ++ b) =
    ('(rs1, s1) <- Engine.run cls self a ;;
     '(rs2, s2) <- Engine.run cls s1 b ;;
     Some (rs1 ++ rs2, s2)).
Proof.
  induction a as [| frame a IH]; intro self.
  - cbn [app Engine.run bind].
    destruct (Engine.run cls self b) as [[rs2 s2] |]; reflexivity.
  - cbn [app Engine.run].
    destruct (Engine.process_frame cls self frame) as [[r s] |];
      [| reflexivity ].
    cbn [bind]. rewrite IH.
    destruct (Engine.run cls s a) as [[rs1 s1] |]; [| reflexivity ].
    cbn [bind].
    destruct (Engine.run cls s1 b) as [[rs2 s2] |]; reflexivity.
Qed.

Lemma state_after_snoc `{OpenCV} (cls : DetectorClass) (frames : list Frame)
  (frame : Frame) :
  state_after cls (frames ++ [frame]) =
  (self <- state_after cls frames ;;
   '(_, self') <- Engine.process_frame cls self frame ;;
   Some self').
Proof.
  unfold state_after. rewrite run_app.
  destruct (Engine.run cls init frames) as [[rs self] |]; [| reflexivity ].
  cbn [bind Engine.run].
  destruct (Engine.process_frame cls self frame) as [[r self'] |];
    reflexivity.
Qed.

(** The state after one more frame is the state that [process_frame]
    leaves. *)
Lemma processed_state `{OpenCV} (file : SourceFile) (frames : list Frame)
  (frame : Frame) (self : DetectorState) (r : FrameResult)
  (self' : DetectorState) :
  state_after (FireDetector file) frames = Some self ->
  Engine.process_frame (FireDetector file) self frame = Some (r, self') ->
  state_after (FireDetector file) (frames ++ [frame]) = Some self'.
Proof.
  intros Hs Hp. rewrite state_after_snoc, Hs. cbn [bind]. now rewrite Hp.
Qed.

(** ** The flicker window over a sequence *)

Lemma skipn_app_le {A} (n : nat) (l r : list A) :
  (n <= length l)%nat -> skipn n (l ++ r) = skipn n l ++ r.
Proof.
  intro Hn. rewrite skipn_app.
  replace (n - length l)%nat with 0%nat by lia. reflexivity.
Qed.

Lemma last_n_snoc {A} (l : list A) (x : A) :
  last_n 10 (l ++ [x]) = deque_append 10 (last_n 10 l) x.
Proof.
  unfold last_n, deque_append.
  rewrite !length_app, length_skipn. cbn [length].
  destruct (le_lt_dec 10 (length l)) as [Hge | Hlt].
  - replace (length l + 1 - 10)%nat with (S (length l - 10)) by lia.
    replace (length l - (length l - 10) + 1 - 10)%nat with 1%nat by lia.
    rewrite !skipn_app_le by (rewrite ?length_skipn; lia).
    f_equal. now rewrite skipn_skipn.
  - replace (length l - 10)%nat with 0%nat by lia. cbn [skipn].
    replace (length l - 0 + 1 - 10)%nat with 0%nat by lia.
    replace (length l + 1 - 10)%nat with 0%nat by lia.
    reflexivity.
Qed.

(** X7.  After any sequence of frames the flicker window holds the mask
    areas of the last ten frames, oldest first (of all the frames when
    fewer than ten were processed). *)
Theorem flicker_window_is_last_ten_areas `{OpenCV} (file : SourceFile)
  (frames : list Frame) :
  exists self,
    state_after (FireDetector file) frames = Some self
    /\ flicker_history self = last_n 10 (mask_areas (FireDetector file) frames).
Proof.
  induction frames as [| frame frames IH] using rev_ind.
  - exists init. split; reflexivity.
  - destruct IH as (self0 & Hs0 & Hh0).
    processed file frames frame.
    rewrite Hs0 in Hs. inversion Hs; subst self0. clear Hs.
    exists self'. split.
    + now apply (processed_state file frames frame self r self').
    + rewrite Hwin, Hh0. unfold mask_areas. rewrite map_app. cbn [map].
      now rewrite last_n_snoc.
Qed.

(** X8.  After any non-empty sequence of frames the retained previous
    frame is the grey image of the last frame processed; a fresh detector
    retains none. *)
Theorem previous_gray_is_last_frame `{OpenCV} (file : SourceFile)
  (frames : list Frame) (frame : Frame) :
  state_after (FireDetector file) [] = Some init
  /\ prev_gray init = None
  /\ exists self',
       state_after (FireDetector file) (frames ++ [frame]) = Some self'
       /\ prev_gray self' = Some (cvtColor_BGR2GRAY frame).
Proof.
  split; [ reflexivity |]. split; [ reflexivity |].
  processed file frames frame.
  exists self'. split; [| exact Hgray ].
  now apply (processed_state file frames frame self r self').
Qed.

(** ** How soon the alert can be raised *)

Lemma counter_after `{OpenCV} (file : SourceFile) (frames : list Frame) :
  exists self,
    state_after (FireDetector file) frames = Some self
    /\ 0 <= consecutive_frames self
       <= Z.max 0 (Z.of_nat (length frames) - 4).
Proof.
  induction frames as [| frame frames IH] using rev_ind.
  - exists init. split; [ reflexivity | cbn; lia ].
  - destruct IH as (self0 & Hs0 & Hc0).
    processed file frames frame.
    rewrite Hs0 in Hs. inversion Hs; subst self0. clear Hs.
    exists self'. split.
    + now apply (processed_state file frames frame self r self').
    + rewrite length_app. cbn [length].
      assert (Hn : length (flicker_history self')
                   = Nat.min (S (length frames)) 10)
        by (rewrite Hwin, deque_append_length, Hlen; lia).
      rewrite Hwin in Hn. rewrite Hcf, Hfl.
      destruct (length (deque_append 10 (flicker_history self) _) <? 5)%nat
        eqn:Hwarm.
      * apply Nat.ltb_lt in Hwarm. rewrite andb_false_r. lia.
      * apply Nat.ltb_ge in Hwarm.
        match goal with
        | |- context [if ?c then _ else _] => destruct c
        end; lia.
Qed.

(** X9.  The counter after [n] frames is at most [n - 4]: the first frame
    has no motion and the first four have no flicker, so none of them can
    vote.  Hence the alert is never raised before frame number
    [required_detections + 4], the ninth frame for [fire_detection.py] and
    the seventh for [fire_detection_advanced.py]. *)
Theorem alert_latency `{OpenCV} (file : SourceFile)
  (frames : list Frame) (frame : Frame) :
  let cls := FireDetector file in
  exists self r self',
    state_after cls frames = Some self
    /\ Engine.process_frame cls self frame = Some (r, self')
    /\ consecutive_frames self'
       <= Z.max 0 (Z.of_nat (S (length frames)) - 4)
    /\ (Z.of_nat (S (length frames)) < self_required_detections cls + 4 ->
        fire_status r = false).
Proof.
  intro cls. processed file frames frame.
  exists self, r, self'. split; [ exact Hs |]. split; [ exact Hp |].
  destruct (counter_after file (frames ++ [frame])) as (s & Hs' & Hc').
  rewrite (processed_state file frames frame self r self' Hs Hp) in Hs'.
  inversion Hs'; subst s. clear Hs'.
  rewrite length_app in Hc'. cbn [length] in Hc'.
  replace (length frames + 1)%nat with (S (length frames)) in Hc' by lia.
  split; [ lia |].
  intro Hearly. rewrite Hfs. apply Z.leb_gt.
  pose proof (required_detections_positive file) as Hrd.
  fold cls in Hrd |- *. lia.
Qed.

(** ** Alert and confidence *)

Lemma full_confidence_iff (consecutive required : Z) :
  0 < required ->
  (100 <= inject_Z consecutive / inject_Z required * 100)%Q
  <-> required <= consecutive.
Proof.
  intro Hr.
  assert (Hq : (0 < inject_Z required)%Q) by (rewrite <- (Zlt_Qlt 0); lia).
  assert (Hd : (inject_Z consecutive / inject_Z required * inject_Z required
                == inject_Z consecutive)%Q) by (field; lra).
  rewrite Zle_Qle.
  set (c := inject_Z consecutive) in *. set (q := inject_Z required) in *.
  set (x := (c / q)%Q) in *.
  split; intro Hx; nra.
Qed.

(** X10.  For every processed frame the alert is raised exactly when the
    confidence is 100; the confidence is never negative and is 0 exactly
    when the counter is 0. *)
Theorem alert_iff_full_confidence `{OpenCV} (file : SourceFile)
  (frames : list Frame) (frame : Frame) :
  let cls := FireDetector file in
  exists self r self',
    state_after cls frames = Some self
    /\ Engine.process_frame cls self frame = Some (r, self')
    /\ (fire_status r = true <-> (confidence r == 100)%Q)
    /\ (0 <= confidence r)%Q
    /\ ((confidence r == 0)%Q <-> consecutive_frames self' = 0).
Proof.
  intro cls. processed file frames frame.
  exists self, r, self'. split; [ exact Hs |]. split; [ exact Hp |].
  pose proof (required_detections_positive file) as Hrd. fold cls in Hrd.
  assert (Hc' : 0 <= consecutive_frames self')
    by (rewrite Hcf; destruct (_ && _); lia).
  fold cls in Hconf. rewrite Hconf, Hfs. fold cls.
  set (c := consecutive_frames self') in *.
  set (q := self_required_detections cls) in *.
  assert (Hq : (0 < inject_Z q)%Q) by (rewrite <- (Zlt_Qlt 0); lia).
  assert (Hcq : (0 <= inject_Z c)%Q) by (rewrite <- (Zle_Qle 0); lia).
  assert (Hx : (0 <= inject_Z c / inject_Z q * 100)%Q).
  { apply Qmult_le_0_compat; [| discriminate ].
    apply Qle_shift_div_l; [ exact Hq | lra ]. }
  split; [| split ].
  - rewrite Z.leb_le, <- (full_confidence_iff c q Hrd).
    symmetry. apply Q.min_l_iff.
  - apply Q.min_glb; [ discriminate | exact Hx ].
  - destruct (Q.min_spec 100 (inject_Z c / inject_Z q * 100))
      as [[Hlt E] | [Hle E]]; rewrite E.
    + split; [ intro E0; discriminate E0 |].
      intro Hz. exfalso. rewrite Hz in Hlt.
      assert (inject_Z 0 / inject_Z q * 100 == 0)%Q
        by (unfold Qdiv; change (inject_Z 0) with 0%Q; ring).
      lra.
    + assert (Hd : (inject_Z c / inject_Z q * inject_Z q == inject_Z c)%Q)
        by (field; lra).
      split.
      * intro E0. apply (inject_Z_injective c 0).
        change (inject_Z 0) with 0%Q.
        set (x := (inject_Z c / inject_Z q)%Q) in *. nra.
      * intros ->. unfold Qdiv. change (inject_Z 0) with 0%Q. ring.
Qed.

(** ** A scene that does not change *)










(** ** The rectangles drawn on the frame *)

(** X12.  The rectangles that [process_frame] draws on its copy of the
    frame are the bounding rectangles of exactly the contours that the
    shape classifier accepts, in the order of the contours; they do not
    depend on motion, flicker or the alert. *)
Theorem rectangles_are_accepted_contours `{OpenCV} (file : SourceFile)
  (frames : list Frame) (frame : Frame) :
  let cls := FireDetector file in
  let contours :=
    findContours (self_detect_fire_color cls (cvtColor_BGR2HSV frame)) in
  exists self r self',
    state_after cls frames = Some self
    /\ Engine.process_frame cls self frame = Some (r, self')
    /\ marked_frame r =
       (frame,
        map boundingRect
          (filter (fun contour =>
                     match self_is_fire_like_shape cls contour with
                     | Some true => true
                     | _ => false
                     end) contours))
    /\ (length (snd (marked_frame r)) <= length contours)%nat.
Proof.
  intros cls contours. processed file frames frame.
  exists self, r, self'. split; [ exact Hs |]. split; [ exact Hp |].
  rewrite Hmark. split; [ reflexivity |].
  cbn [snd]. rewrite length_map. apply filter_length_le.
Qed.

(** ** Exclusion of a band given as two hue ranges *)

Lemma map2_map_r {A B C D} (f : A -> C -> D) (g : B -> C) (m : list A)
  (l : list B) :
  map2 f m (map g l) = map2 (fun x p => f x (g p)) m l.
Proof.
  revert l. induction m as [| x m IH]; intros [| p l]; cbn; auto.
  now rewrite IH.
Qed.

Lemma map2_map2_l {A B C D} (f : C -> B -> D) (g : A -> B -> C) (m : list A)
  (l : list B) :
  map2 f (map2 g m l) l = map2 (fun x p => f (g x p) p) m l.
Proof.
  revert l. induction m as [| x m IH]; intros [| p l]; cbn; auto.
  now rewrite IH.
Qed.

Lemma map2_ext {A B C} (f g : A -> B -> C) (m : list A) (l : list B) :
  (forall x p, f x p = g x p) -> map2 f m l = map2 g m l.
Proof.
  intro E. revert l. induction m as [| x m IH]; intros [| p l]; cbn; auto.
  now rewrite E, IH.
Qed.

Lemma image_map2_map_r {A B C D} (f : A -> C -> D) (g : B -> C)
  (m : Image A) (img : Image B) :
  image_map2 f m (image_map g img) = image_map2 (fun x p => f x (g p)) m img.
Proof.
  unfold image_map2, image_map. rewrite map2_map_r.
  apply map2_ext. intros. apply map2_map_r.
Qed.

Lemma image_map2_map2_l {A B C D} (f : C -> B -> D) (g : A -> B -> C)
  (m : Image A) (img : Image B) :
  image_map2 f (image_map2 g m img) img
  = image_map2 (fun x p => f (g x p) p) m img.
Proof.
  unfold image_map2. rewrite map2_map2_l.
  apply map2_ext. intros. apply map2_map2_l.
Qed.

Lemma image_map2_ext {A B C} (f g : A -> B -> C) (m : Image A)
  (img : Image B) :
  (forall x p, f x p = g x p) -> image_map2 f m img = image_map2 g m img.
Proof.
  intro E. unfold image_map2. apply map2_ext. intros.
  now apply map2_ext.
Qed.

(** X13.  Removing from a mask the union of two [inRange] masks of a frame,
    as the code does for the tomato and the cloth reds, is the same as
    removing the two range masks one after the other. *)
Theorem union_exclusion_splits (hsv_frame : HSVFrame) (fire_mask : Mask)
  (lower1 upper1 lower2 upper2 : HSVPixel) :
  exclude fire_mask
    (bitwise_or (inRange hsv_frame lower1 upper1)
       (inRange hsv_frame lower2 upper2))
  = exclude (exclude fire_mask (inRange hsv_frame lower1 upper1))
      (inRange hsv_frame lower2 upper2).
Proof.
  unfold exclude, bitwise_and, bitwise_or, bitwise_not, inRange.
  rewrite image_map2_same, !image_map_map.
  rewrite !image_map2_map_r, image_map2_map2_l.
  apply image_map2_ext. intros x p.
  destruct p as [[h s] v], lower1 as [[? ?] ?], upper1 as [[? ?] ?],
    lower2 as [[? ?] ?], upper2 as [[? ?] ?].
  unfold in_range_pixel.
  destruct (_ && _); destruct (_ && _); cbn [Z.lor Z.lxor Pos.lor Pos.lxor].
  - now rewrite !Z.land_0_r.
  - cbn. now rewrite !Z.land_0_r.
  - cbn. now rewrite !Z.land_0_r.
  - cbn. rewrite <- Z.land_assoc. reflexivity.
Qed.

(** ** The capture loop of [fire_detection.py] *)

Section MainFacts.
Context `{cv : OpenCV}.
Variable resize : Frame -> Frame.

Local Abbreviation Turn := FireDetectionMain.Turn.
Local Abbreviation Locals := FireDetectionMain.Locals.
Local Abbreviation loop_body := (FireDetectionMain.loop_body resize).
Local Abbreviation loop := (FireDetectionMain.loop resize).
Local Abbreviation main := (FireDetectionMain.main resize).
Local Abbreviation results_shown := FireDetectionMain.results_shown.
Local Abbreviation banner_before_shown := FireDetectionMain.banner_before_shown.
Local Abbreviation frames_taken := FireDetectionMain.frames_taken.

Lemma loop_body_frame (l : Locals) (t : Turn) (frame : Frame)
  (l' : Locals) (out : list FireDetectionMain.Output)
  (control : FireDetectionMain.Control) :
  FireDetectionMain.cap_read t = Some frame ->
  loop_body l t = Some (l', out, control) ->
  exists r,
    Engine.process_frame FireDetection.FireDetector
      (FireDetectionMain.detector l) (resize frame)
    = Some (r, FireDetectionMain.detector l')
    /\ FireDetectionMain.frame_count l'
       = FireDetectionMain.frame_count l + 1
    /\ FireDetectionMain.alert_sound_played l' = fire_status r
    /\ (forall rest, results_shown (out ++ rest) = r :: results_shown rest)
    /\ (forall rest,
          banner_before_shown false (out ++ rest)
          = (fire_status r
             && negb (FireDetectionMain.alert_sound_played l))
            :: banner_before_shown false rest)
    /\ control =
       (if Z.land (FireDetectionMain.wait_key t) 255
           =? FireDetectionMain.ord_q
        then FireDetectionMain.Break else FireDetectionMain.Continue).
Proof.
  intros Hread. unfold FireDetectionMain.loop_body. rewrite Hread. cbv zeta.
  destruct (Engine.process_frame _ _ _) as [[r d] |]; [| discriminate ].
  cbn [bind].
  destruct (_ mod 30 =? 0);
    [ destruct (fdiv _ _); [| discriminate ] |];
    cbn [bind];
    destruct (fire_status r) eqn:Hfire;
    destruct (FireDetectionMain.alert_sound_played l) eqn:Hflag;
    cbn [negb];
    destruct (_ =? FireDetectionMain.ord_q);
    try destruct (_ =? FireDetectionMain.ord_s);
    try destruct (_ =? FireDetectionMain.ord_t);
    intro E; inversion E; subst; clear E;
    exists r; cbn; rewrite ?Hfire; repeat split; reflexivity.
Qed.

Lemma banner_ignores_closing (pending : bool)
  (out : list FireDetectionMain.Output) :
  banner_before_shown pending (out ++ [FireDetectionMain.PrintCameraClosed])
  = banner_before_shown pending out.
Proof.
  revert pending. induction out as [| o out IH]; intro pending.
  - reflexivity.
  - destruct o; cbn; rewrite ?IH; reflexivity.
Qed.

Lemma results_ignore_closing (out : list FireDetectionMain.Output) :
  results_shown (out ++ [FireDetectionMain.PrintCameraClosed])
  = results_shown out.
Proof.
  unfold FireDetectionMain.results_shown. rewrite flat_map_app. cbn.
  apply app_nil_r.
Qed.

Lemma loop_banner (turns : list Turn) :
  forall l l' out control,
    loop l turns = Some (l', out, control) ->
    banner_before_shown false out
    = rising_edges (FireDetectionMain.alert_sound_played l)
        (map fire_status (results_shown out)).
Proof.
  induction turns as [| t rest IH]; intros l l' out control Hl.
  - inversion Hl. reflexivity.
  - cbn [FireDetectionMain.loop] in Hl.
    destruct (loop_body l t) as [[[l1 out1] c1] |] eqn:Hb; [| discriminate ].
    cbn [bind] in Hl.
    destruct (FireDetectionMain.cap_read t) as [frame |] eqn:Hread.
    + destruct (loop_body_frame l t frame l1 out1 c1 Hread Hb)
        as (r & _ & _ & Hflag & Hres & Hban & _).
      destruct c1.
      * destruct (loop l1 rest) as [[[l2 out2] c2] |] eqn:Hrest;
          [| discriminate ].
        cbn [bind] in Hl. inversion Hl; subst; clear Hl.
        rewrite Hban, Hres. cbn [map rising_edges]. f_equal.
        rewrite (IH l1 l' out2 control Hrest). now rewrite Hflag.
      * inversion Hl; subst; clear Hl.
        rewrite <- (app_nil_r out). rewrite Hban, Hres. reflexivity.
    + unfold FireDetectionMain.loop_body in Hb. rewrite Hread in Hb.
      inversion Hb; subst; clear Hb. inversion Hl; subst. reflexivity.
Qed.

(** X14.  In every run of [main] the alert banner is printed exactly when
    the alert turns on: before the frame shown is the first one, or the
    first after a frame without alert, that has [fire_status] true; it is
    not printed again while the alert stays on. *)
Theorem banner_on_rising_edges (start : Q) (turns : list Turn)
  (l' : Locals) (out : list FireDetectionMain.Output)
  (control : FireDetectionMain.Control) :
  main start turns = Some (l', out, control) ->
  banner_before_shown false out
  = rising_edges false (map fire_status (results_shown out)).
Proof.
  unfold FireDetectionMain.main. cbv zeta.
  destruct (loop _ turns) as [[[l1 out1] c1] |] eqn:Hl; [| discriminate ].
  cbn [bind]. apply loop_banner in Hl.
  cbn [FireDetectionMain.alert_sound_played] in Hl.
  destruct c1; intro E; inversion E; subst; clear E.
  - exact Hl.
  - now rewrite banner_ignores_closing, results_ignore_closing.
Qed.

Lemma loop_feeds_detector (turns : list Turn) :
  forall l l' out control,
    loop l turns = Some (l', out, control) ->
    Engine.run FireDetection.FireDetector (FireDetectionMain.detector l)
      (map resize (frames_taken turns))
    = Some (results_shown out, FireDetectionMain.detector l')
    /\ FireDetectionMain.frame_count l'
       = FireDetectionMain.frame_count l
         + Z.of_nat (length (frames_taken turns)).
Proof.
  induction turns as [| t rest IH]; intros l l' out control Hl.
  - inversion Hl. cbn. split; [ reflexivity | lia ].
  - cbn [FireDetectionMain.loop] in Hl.
    destruct (loop_body l t) as [[[l1 out1] c1] |] eqn:Hb; [| discriminate ].
    cbn [bind] in Hl. cbn [FireDetectionMain.frames_taken].
    destruct (FireDetectionMain.cap_read t) as [frame |] eqn:Hread.
    + destruct (loop_body_frame l t frame l1 out1 c1 Hread Hb)
        as (r & Hp & Hcount & _ & Hres & _ & Hc).
      cbn [map Engine.run]. rewrite Hp. cbn [bind].
      destruct (Z.land (FireDetectionMain.wait_key t) 255
                =? FireDetectionMain.ord_q); subst c1.
      * inversion Hl; subst; clear Hl.
        rewrite <- (app_nil_r out), Hres. cbn. split; [ reflexivity | lia ].
      * destruct (loop l1 rest) as [[[l2 out2] c2] |] eqn:Hrest;
          [| discriminate ].
        cbn [bind] in Hl. inversion Hl; subst; clear Hl.
        destruct (IH l1 l' out2 control Hrest) as (Hrun & Hn).
        rewrite Hrun, Hres. cbn [bind length].
        split; [ reflexivity | lia ].
    + unfold FireDetectionMain.loop_body in Hb. rewrite Hread in Hb.
      inversion Hb; subst; clear Hb. inversion Hl; subst.
      cbn. split; [ reflexivity | lia ].
Qed.

(** X15.  In every run of [main] the detector processes exactly the frames
    read before the first failed read, up to the frame during which [q] is
    pressed, each resized, in order and once: the results shown are those
    of [process_frame] on that sequence, the detector ends in the state that
    the sequence leaves, and [frame_count] is its length. *)
Theorem main_feeds_detector (start : Q) (turns : list Turn)
  (l' : Locals) (out : list FireDetectionMain.Output)
  (control : FireDetectionMain.Control) :
  main start turns = Some (l', out, control) ->
  Engine.run FireDetection.FireDetector init
    (map resize (frames_taken turns))
  = Some (results_shown out, FireDetectionMain.detector l')
  /\ FireDetectionMain.frame_count l'
     = Z.of_nat (length (frames_taken turns)).
Proof.
  unfold FireDetectionMain.main. cbv zeta.
  destruct (loop _ turns) as [[[l1 out1] c1] |] eqn:Hl; [| discriminate ].
  cbn [bind]. apply loop_feeds_detector in Hl.
  cbn [FireDetectionMain.detector FireDetectionMain.frame_count] in Hl.
  destruct c1; intro E; inversion E; subst; clear E.
  - exact Hl.
  - now rewrite results_ignore_closing.
Qed.

Lemma loop_stops (before : list Turn) (t : Turn) (rest : list Turn) :
  FireDetectionMain.cap_read t = None
  \/ Z.land (FireDetectionMain.wait_key t) 255 = FireDetectionMain.ord_q ->
  forall l,
    loop l (before ++ t :: rest) = loop l (before ++ [t])
    /\ (forall l' out control,
          loop l (before ++ [t]) = Some (l', out, control) ->
          control = FireDetectionMain.Break).
Proof.
  intro Hstop.
  assert (Hbody : forall l l1 out1 c1,
             loop_body l t = Some (l1, out1, c1) ->
             c1 = FireDetectionMain.Break).
  { intros l l1 out1 c1 Hb.
    destruct (FireDetectionMain.cap_read t) as [frame |] eqn:Hread.
    - destruct Hstop as [Hn | Hq]; [ discriminate |].
      destruct (loop_body_frame l t frame l1 out1 c1 Hread Hb)
        as (_ & _ & _ & _ & _ & _ & Hc).
      rewrite Hq, Z.eqb_refl in Hc. exact Hc.
    - unfold FireDetectionMain.loop_body in Hb. rewrite Hread in Hb.
      now inversion Hb. }
  induction before as [| b before IH]; intro l.
  - cbn [app FireDetectionMain.loop].
    destruct (loop_body l t) as [[[l1 out1] c1] |] eqn:Hb.
    + rewrite (Hbody l l1 out1 c1 Hb). cbn [bind]. split; [ reflexivity |].
      intros l' out control E. now inversion E.
    + split; [ reflexivity | discriminate ].
  - cbn [app FireDetectionMain.loop].
    destruct (loop_body l b) as [[[l1 out1] c1] |];
      [| split; [ reflexivity | discriminate ] ].
    cbn [bind]. destruct c1.
    + destruct (IH l1) as (Hsame & Hbreak). rewrite Hsame.
      split; [ reflexivity |].
      destruct (loop l1 (before ++ [t])) as [[[l2 out2] c2] |] eqn:Hl;
        [| discriminate ].
      cbn [bind]. intros l' out control E. inversion E; subst.
      eapply Hbreak. reflexivity.
    + split; [ reflexivity |]. intros l' out control E. now inversion E.
Qed.

(** X16.  [main] stops at the first turn whose read fails or during which
    [q] is pressed: the turns after it change nothing, and a run up to that
    turn ends in [Break] with the closing message printed last. *)
Theorem main_stops_at_quit_or_failed_read (start : Q)
  (before : list Turn) (t : Turn) (rest : list Turn) :
  FireDetectionMain.cap_read t = None
  \/ Z.land (FireDetectionMain.wait_key t) 255 = FireDetectionMain.ord_q ->
  main start (before ++ t :: rest) = main start (before ++ [t])
  /\ (forall l' out control,
        main start (before ++ [t]) = Some (l', out, control) ->
        control = FireDetectionMain.Break
        /\ last out FireDetectionMain.PrintCannotRead
           = FireDetectionMain.PrintCameraClosed).
Proof.
  intro Hstop. unfold FireDetectionMain.main. cbv zeta.
  set (l0 := {| FireDetectionMain.detector := init;
                FireDetectionMain.frame_count := 0;
                FireDetectionMain.fps_start := start;
                FireDetectionMain.fps := 0;
                FireDetectionMain.alert_sound_played := false |}).
  destruct (loop_stops before t rest Hstop l0) as (Hsame & Hbreak).
  rewrite Hsame. split; [ reflexivity |].
  destruct (loop l0 (before ++ [t])) as [[[l1 out1] c1] |] eqn:Hl;
    [| discriminate ].
  cbn [bind]. rewrite (Hbreak l1 out1 c1 eq_refl).
  intros l' out control E. inversion E; subst.
  split; [ reflexivity | apply last_last ].
Qed.

Lemma loop_body_succeeds (l : Locals) (t : Turn) (previous : Q) :
  well_formed (FireDetectionMain.detector l) ->
  (FireDetectionMain.fps_start l <= previous)%Q ->
  (previous < FireDetectionMain.time_fps t)%Q ->
  (FireDetectionMain.time_fps t <= FireDetectionMain.time_restart t)%Q ->
  exists l' out control,
    loop_body l t = Some (l', out, control)
    /\ well_formed (FireDetectionMain.detector l')
    /\ (FireDetectionMain.fps_start l'
        <= FireDetectionMain.time_restart t)%Q.
Proof.
  intros Hwf Hstart Hlt Hle. unfold FireDetectionMain.loop_body.
  destruct (FireDetectionMain.cap_read t) as [frame |].
  - cbv zeta.
    destruct (process_frame_well_formed (FireDetector fire_detection_py)
                (required_detections_positive fire_detection_py)
                (shape_total fire_detection_py)
                (FireDetectionMain.detector l) (resize frame) Hwf)
      as (r & d & Hp & Hwf' & _).
    change (FireDetector fire_detection_py)
      with FireDetection.FireDetector in Hp.
    rewrite Hp. cbn [bind].
    assert (Hfps : exists f s,
               (if (FireDetectionMain.frame_count l + 1) mod 30 =? 0
                then
                  fps <- fdiv 30 (FireDetectionMain.time_fps t
                                  - FireDetectionMain.fps_start l) ;;
                  Some (fps, FireDetectionMain.time_restart t)
                else Some (FireDetectionMain.fps l,
                           FireDetectionMain.fps_start l))
               = Some (f, s)
               /\ (s <= FireDetectionMain.time_restart t)%Q).
    { destruct (_ =? 0).
      - rewrite fdiv_defined by lra. cbn [bind].
        do 2 eexists. split; [ reflexivity | lra ].
      - do 2 eexists. split; [ reflexivity | lra ]. }
    destruct Hfps as (f & s & Hf & Hs). rewrite Hf. cbn [bind].
    destruct (fire_status r);
      destruct (negb (FireDetectionMain.alert_sound_played l));
      destruct (_ =? FireDetectionMain.ord_q);
      try destruct (_ =? FireDetectionMain.ord_s);
      try destruct (_ =? FireDetectionMain.ord_t);
      do 3 eexists; (split; [ reflexivity |]); split; assumption.
  - do 3 eexists. split; [ reflexivity |]. split; [ exact Hwf | lra ].
Qed.

Lemma loop_succeeds (turns : list Turn) :
  forall l previous,
    well_formed (FireDetectionMain.detector l) ->
    (FireDetectionMain.fps_start l <= previous)%Q ->
    clock_advances previous turns ->
    exists l' out control, loop l turns = Some (l', out, control).
Proof.
  induction turns as [| t rest IH]; intros l previous Hwf Hstart Hclock.
  - do 3 eexists. reflexivity.
  - destruct Hclock as (Hlt & Hle & Hrest).
    destruct (loop_body_succeeds l t previous Hwf Hstart Hlt Hle)
      as (l1 & out1 & c1 & Hb & Hwf1 & Hstart1).
    cbn [FireDetectionMain.loop]. rewrite Hb. cbn [bind].
    destruct c1; [| do 3 eexists; reflexivity ].
    destruct (IH l1 _ Hwf1 Hstart1 Hrest) as (l2 & out2 & c2 & Hl).
    rewrite Hl. cbn [bind]. do 3 eexists. reflexivity.
Qed.

(** X17.  [main] divides by the time elapsed since [fps_start] on every
    thirtieth frame.  When the clock readings go forward from one turn to
    the next, the divisor is never zero and [main] runs through every turn
    without an error. *)
Theorem main_runs_while_clock_advances (start : Q) (turns : list Turn) :
  clock_advances start turns ->
  exists l' out control, main start turns = Some (l', out, control).
Proof.
  intro Hclock. unfold FireDetectionMain.main. cbv zeta.
  destruct (loop_succeeds turns
              {| FireDetectionMain.detector := init;
                 FireDetectionMain.frame_count := 0;
                 FireDetectionMain.fps_start := start;
                 FireDetectionMain.fps := 0;
                 FireDetectionMain.alert_sound_played := false |}
              start)
    as (l1 & out1 & c1 & Hl).
  - split; [ constructor | cbn; lia ].
  - apply Qle_refl.
  - exact Hclock.
  - rewrite Hl. cbn [bind]. destruct c1; do 3 eexists; reflexivity.
Qed.

End MainFacts.

(** The capture loop on the synthetic camera, frames left as they are. *)

Lemma synthetic_main_runs :
  option_map (fun _ => tt)
    (@FireDetectionMain.main Synthetic.camera (fun frame => frame) 0
       (synthetic_turns 1 Synthetic.flickering_flame))
  = Some tt.
Proof. vm_compute. reflexivity. Qed.

Lemma banner_on_rising_edges_example :
  exists l' out control,
    @FireDetectionMain.main Synthetic.camera (fun frame => frame) 0
      (synthetic_turns 1 Synthetic.flickering_flame)
    = Some (l', out, control)
    /\ FireDetectionMain.banner_before_shown false out
       = rising_edges false
           (map fire_status (FireDetectionMain.results_shown out)).
Proof.
  pose proof synthetic_main_runs as Hruns.
  destruct (@FireDetectionMain.main Synthetic.camera (fun frame => frame) 0
              (synthetic_turns 1 Synthetic.flickering_flame))
    as [[[l' out] control] |] eqn:E; [| discriminate ].
  exists l', out, control. split; [ reflexivity |].
  exact (@banner_on_rising_edges Synthetic.camera (fun frame => frame) 0
           (synthetic_turns 1 Synthetic.flickering_flame) l' out control E).
Defined.

Lemma main_feeds_detector_example :
  exists l' out control,
    @FireDetectionMain.main Synthetic.camera (fun frame => frame) 0
      (synthetic_turns 1 Synthetic.flickering_flame)
    = Some (l', out, control)
    /\ FireDetectionMain.frame_count l' = 10.
Proof.
  pose proof synthetic_main_runs as Hruns.
  destruct (@FireDetectionMain.main Synthetic.camera (fun frame => frame) 0
              (synthetic_turns 1 Synthetic.flickering_flame))
    as [[[l' out] control] |] eqn:E; [| discriminate ].
  exists l', out, control. split; [ reflexivity |].
  exact (proj2
           (@main_feeds_detector Synthetic.camera (fun frame => frame) 0
              (synthetic_turns 1 Synthetic.flickering_flame)
              l' out control E)).
Defined.

Lemma main_stops_example :
  @FireDetectionMain.main Synthetic.camera (fun frame => frame) 0
    (synthetic_turns 1 [Synthetic.scene 25] ++ failed_read
     :: synthetic_turns 2 [Synthetic.scene 30])
  = @FireDetectionMain.main Synthetic.camera (fun frame => frame) 0
      (synthetic_turns 1 [Synthetic.scene 25] ++ [failed_read]).
Proof.
  apply (@main_stops_at_quit_or_failed_read Synthetic.camera
           (fun frame => frame) 0).
  left. reflexivity.
Defined.

Lemma main_runs_example :
  exists l' out control,
    @FireDetectionMain.main Synthetic.camera (fun frame => frame) 0
      (synthetic_turns 1 (repeat (Synthetic.scene 25) 31))
    = Some (l', out, control).
Proof.
  apply (@main_runs_while_clock_advances Synthetic.camera
           (fun frame => frame) 0).
  cbn [repeat synthetic_turns clock_advances
       FireDetectionMain.time_fps FireDetectionMain.time_restart].
  repeat (split; [ reflexivity |]; split; [ discriminate |]).
  exact I.
Defined.

(** ** The cooldown of the audio alert *)

Lemma last_cons_default {A} (l : list A) (x d : A) :
  last (x :: l) d = last l x.
Proof.
  revert x d. induction l as [| a l IH]; intros x d.
  - reflexivity.
  - change (last (x :: a :: l) d) with (last (a :: l) d).
    now rewrite (IH a d), (IH a x).
Qed.

(** X18.  Over any succession of [play_alert] calls, each beep that sounds
    comes more than [alert_cooldown] after the beep before it, and the first
    more than [alert_cooldown] after the initial [last_alert_time]; the
    cooldown itself never changes and [last_alert_time] ends as the time of
    the last beep that sounded. *)
Theorem beeps_respect_cooldown (calls : list (Q * bool))
  (self : FireDetectorWithAlert.AlertState) :
  let self' := fst (FireDetectorWithAlert.play_alerts self calls) in
  let beeps := snd (FireDetectorWithAlert.play_alerts self calls) in
  FireDetectorWithAlert.spaced (FireDetectorWithAlert.alert_cooldown self)
    (FireDetectorWithAlert.last_alert_time self) beeps
  /\ FireDetectorWithAlert.alert_cooldown self'
     = FireDetectorWithAlert.alert_cooldown self
  /\ FireDetectorWithAlert.last_alert_time self'
     = last beeps (FireDetectorWithAlert.last_alert_time self).
Proof.
  revert self. induction calls as [| [current_time beep_raises] rest IH];
    intro self; cbv zeta.
  - cbn. repeat split.
  - cbn [FireDetectorWithAlert.play_alerts].
    unfold FireDetectorWithAlert.play_alert.
    destruct (Qlt_bool _ _) eqn:Hcool; [ destruct beep_raises |].
    + specialize (IH self). cbv zeta in IH.
      destruct (FireDetectorWithAlert.play_alerts self rest) as [s2 beeps].
      exact IH.
    + specialize (IH {| FireDetectorWithAlert.last_alert_time := current_time;
                        FireDetectorWithAlert.alert_cooldown :=
                          FireDetectorWithAlert.alert_cooldown self |}).
      cbv zeta in IH.
      destruct (FireDetectorWithAlert.play_alerts _ rest) as [s2 beeps].
      cbn [fst snd FireDetectorWithAlert.alert_cooldown
           FireDetectorWithAlert.last_alert_time] in *.
      destruct IH as (Hsp & Hcd & Hlast).
      apply Qlt_bool_iff in Hcool.
      split; [ split; assumption |]. split; [ exact Hcd |].
      rewrite Hlast. symmetry. apply last_cons_default.
    + specialize (IH self). cbv zeta in IH.
      destruct (FireDetectorWithAlert.play_alerts self rest) as [s2 beeps].
      exact IH.
Qed.

(** ** Frames without any candidate pixel *)

(** X19.  A frame whose mask has no set pixel never votes, whatever
    contours and flicker it comes with: after any sequence of frames, [k]
    such frames in a row lower the counter by [k], down to 0 at most. *)
Theorem blank_frames_decay `{OpenCV} (file : SourceFile)
  (frames blanks : list Frame) :
  let cls := FireDetector file in
  Forall (fun frame =>
            countNonZero (self_detect_fire_color cls (cvtColor_BGR2HSV frame))
            = 0) blanks ->
  exists self self',
    state_after cls frames = Some self
    /\ state_after cls (frames ++ blanks) = Some self'
    /\ consecutive_frames self' =
       Z.max 0 (consecutive_frames self - Z.of_nat (length blanks)).
Proof.
  intro cls. induction blanks as [| blank blanks IH] using rev_ind;
    intro Hblank.
  - destruct (state_after_spec cls (required_detections_positive file)
                (shape_total file) frames) as (s & Hs & [_ Hc] & _).
    exists s, s. rewrite app_nil_r. split; [ exact Hs |].
    split; [ exact Hs | cbn; lia ].
  - apply Forall_app in Hblank. destruct Hblank as (Hblanks & Hlast).
    inversion Hlast as [| ? ? Hzero _]; subst.
    destruct (IH Hblanks) as (s0 & s1 & Hs0 & Hs1 & Hc1).
    processed file (frames ++ blanks) blank.
    fold cls in Hs. rewrite Hs1 in Hs. inversion Hs; subst s1. clear Hs.
    exists s0, self'. split; [ exact Hs0 |]. split.
    + rewrite app_assoc.
      now apply (processed_state file (frames ++ blanks) blank self r self').
    + assert (Hr : motion_ratio r = 0%Q) by (apply Hm0; exact Hzero).
      assert (Hno : Qlt_bool (self_min_motion_threshold (FireDetector file)) 0
                    = false).
      { apply Qlt_bool_false_iff. apply Qlt_le_weak.
        apply motion_threshold_positive. }
      rewrite Hcf, Hr, Hno, andb_false_r. cbn [andb].
      rewrite Hc1, length_app. cbn [length]. lia.
Qed.

Lemma dark_scene_is_blank (file : SourceFile) :
  countNonZero
    (@self_detect_fire_color Synthetic.camera (FireDetector file)
       (@cvtColor_BGR2HSV Synthetic.camera (Synthetic.scene 0)))
  = 0.
Proof. destruct file; vm_compute; reflexivity. Qed.

Lemma blank_frames_decay_example :
  exists self self' : @DetectorState Synthetic.camera,
    @state_after Synthetic.camera (FireDetector fire_detection_py)
      Synthetic.flickering_flame
    = Some self
    /\ @state_after Synthetic.camera (FireDetector fire_detection_py)
         (Synthetic.flickering_flame
          ++ [Synthetic.scene 0; Synthetic.scene 0; Synthetic.scene 0])
       = Some self'
    /\ consecutive_frames self' = Z.max 0 (consecutive_frames self - 3).
Proof.
  apply (@blank_frames_decay Synthetic.camera fire_detection_py
           Synthetic.flickering_flame
           [Synthetic.scene 0; Synthetic.scene 0; Synthetic.scene 0]).
  repeat constructor; apply (dark_scene_is_blank fire_detection_py).
Defined.
